(** * Ahrhoff Stock Planner: the planning calculator and the alert detector

    A shallow embedding of [src/calculations.ts] ([calculateItemPlanning] and
    [detectAlerts]) with the data model of [types.ts], and the properties the
    specification states about them.

    Modelling conventions.
    - A JavaScript [number] is an exact rational ([Q]); arithmetic is exact,
      so rounding error, [NaN] and the infinities of IEEE doubles are outside
      the model.  Equality of numbers is [Qeq] ([==]).
    - A [Date] is the record of the three observations the code makes of it:
      [getTime] (milliseconds, an integer), [getFullYear] and [getMonth]
      (local calendar).
    - A string that holds a date is modelled by what [new Date(s).getTime()]
      makes of it: an instant, or nothing when the string does not parse.
      An optional / nullable string field is an [option]; [None] stands for
      every falsy value ([null], [undefined], the empty string).
    - [detectAlerts] reads the clock ([new Date()]); here the reading is the
      explicit argument [now]. *)

From Stdlib Require Import ZArith QArith Qround Lqa Lia.
From Stdlib Require Import List String Ascii Bool DecimalString Permutation.
Import ListNotations.

Open Scope Q_scope.

(** ** JavaScript numbers, [Math] and string helpers *)

Module Js.

Abbreviation number := Q.

(** [a < b], [a <= b] and [a > b] as the booleans the code branches on. *)
Definition ltb (a b : number) : bool := negb (Qle_bool b a).
Definition leb (a b : number) : bool := Qle_bool a b.
Definition gtb (a b : number) : bool := ltb b a.

Definition Math_max (a b : number) : number := if ltb a b then b else a.
Definition Math_min (a b : number) : number := if ltb b a then b else a.

(** [Math.ceil] and [Math.round] (halves go up). *)
Definition Math_ceil (x : number) : number := inject_Z (Qceiling x).
Definition Math_round (x : number) : Z := Qfloor (x + (1 # 2)).

(** [x || y] on numbers: [0] is the falsy number. *)
Definition or_else (x y : number) : number := if Qeq_bool x 0 then y else x.

(** [String(n)] for an integer [n]. *)
Definition String_of_int (n : Z) : string := NilZero.string_of_int (Z.to_int n).

(** [s.padStart(2, '0')]. *)
Definition padStart2 (s : string) : string :=
  match String.length s with
  | O => "00"
  | S O => String "0"%char s
  | _ => s
  end.

(** [arr.reduce((sum, x) => sum + f(x), 0)]. *)
Definition sum_by {A : Type} (f : A -> number) (xs : list A) : number :=
  fold_left (fun sum x => sum + f x) xs 0.

End Js.

(** ** Dates *)

Record Date : Type := mkDate
  { getTime : Z          (* milliseconds since the epoch *)
  ; getFullYear : Z      (* local calendar year *)
  ; getMonth : Z         (* local calendar month, 0 .. 11 *)
  }.

(** A string meant to hold a date. *)
Inductive DateString : Type :=
| IsoDate (ms : Z)       (* [new Date(s).getTime()] is [ms] *)
| NotADate.              (* [new Date(s)] is an invalid date *)

Definition parseDate (s : DateString) : option Z :=
  match s with
  | IsoDate ms => Some ms
  | NotADate => None
  end.

(** [new Date(year, monthIndex, 1)], observed through [getFullYear] and
    [getMonth]: a two-digit year counts from 1900, and a month index outside
    0 .. 11 carries into the year. *)
Definition firstOfMonth (year monthIndex : Z) : Z * Z :=
  let yr := if ((0 <=? year) && (year <=? 99))%Z then (1900 + year)%Z else year in
  ((yr + monthIndex / 12)%Z, (monthIndex mod 12)%Z).

(** [`${d.getFullYear()}-${String(d.getMonth() + 1).padStart(2, '0')}`]. *)
Definition monthKey (d : Z * Z) : string :=
  (Js.String_of_int (fst d) ++ "-" ++ Js.padStart2 (Js.String_of_int (snd d + 1)))%string.

(** ** Data model ([types.ts]) *)

Inductive Category : Type := Clex | Browser | Segawean | Other.

Module Item.
Record t : Type := mk
  { id : string
  ; skuCode : string
  ; name : string
  ; category : Category
  ; packSize : Js.number
  ; leadTimeDays : Js.number
  ; moq : Js.number
  ; costPerUnit : Js.number
  ; notes : option string
  ; shelfLifeDays : option Js.number
  }.
End Item.

Inductive LotStatus : Type := available | expired | damaged.

Definition LotStatus_eqb (a b : LotStatus) : bool :=
  match a, b with
  | available, available | expired, expired | damaged, damaged => true
  | _, _ => false
  end.

Module InventoryLot.
Record t : Type := mk
  { id : string
  ; itemId : string
  ; lotNumber : string
  ; expiryDate : option DateString
  ; quantityRemaining : Js.number
  ; receivedDate : option DateString
  ; quantityReceived : option Js.number
  ; status : LotStatus
  ; notes : option string
  }.
End InventoryLot.

Module SalesHistory.
Record t : Type := mk
  { id : string
  ; itemId : string
  ; month : string                 (* YYYY-MM *)
  ; quantitySold : Js.number
  }.
End SalesHistory.

Inductive WhatsappMode : Type := disabled | clickToWhatsApp | webhookAPI.
Inductive ForecastMethod : Type := simpleAverage6Months | weightedAverage.
Inductive LowStockRule : Type := belowDaysCover | belowReorderPoint.

Module Settings.
Record t : Type := mk
  { defaultLeadTimeDays : Js.number
  ; safetyStockDays : Js.number
  ; reviewPeriodDays : Js.number
  ; lowStockDaysCoverThreshold : Js.number
  ; expiryWarningDays : Js.number
  ; notificationCooldownHours : Js.number
  ; currencySymbol : string
  ; whatsappMode : WhatsappMode
  ; whatsappNumber : string
  ; whatsappRecipients : list string
  ; webhookUrl : option string
  ; webhookApiKey : option string
  ; forecastMethod : ForecastMethod
  ; weights : list Js.number
  ; lowStockRule : LowStockRule
  }.
End Settings.

Inductive AlertType : Type := lowStock | expiry.
Inductive AlertStatus : Type := pending | sent | dismissed.

Definition AlertType_eqb (a b : AlertType) : bool :=
  match a, b with
  | lowStock, lowStock | expiry, expiry => true
  | _, _ => false
  end.

Definition AlertStatus_eqb (a b : AlertStatus) : bool :=
  match a, b with
  | pending, pending | sent, sent | dismissed, dismissed => true
  | _, _ => false
  end.

(** The text of an alert, kept as the arguments of its template: the
    low-stock message carries the product name, [availableStock] and
    [Math.round(daysCover)]; the expiry message carries the product name
    and, for each expiring lot, [lotNumber] and [expiryDate]. *)
Inductive Message : Type :=
| LowStockMessage (name : string) (current : Js.number) (daysCoverRounded : Z)
| ExpiryMessage (name : string) (lotSummaries : list (string * option DateString)).

Module InventoryAlert.
Record t : Type := mk
  { id : string
  ; createdAt : DateString
  ; itemId : string
  ; type : AlertType
  ; message : Message
  ; status : AlertStatus
  ; lastSentAt : option DateString
  ; recipientsSnapshot : option (list string)
  }.
End InventoryAlert.

Module ItemPlanningView.
Record t : Type := mk
  { item : Item.t
  ; lots : list InventoryLot.t
  ; sales : list SalesHistory.t
  ; availableStock : Js.number
  ; avgMonthlyDemand : Js.number
  ; dailyDemand : Js.number
  ; safetyStock : Js.number
  ; reorderPoint : Js.number
  ; suggestedOrderQty : Js.number
  ; freshnessCapApplied : bool
  ; freshnessCapQty : Js.number
  ; projectedDaysCoverAfterOrder : Js.number
  ; daysCover : Js.number
  ; lowStockFlag : bool
  ; expiringSoonLots : list InventoryLot.t
  }.
End ItemPlanningView.

(** [DEFAULT_SETTINGS] of [constants.ts]. *)
Definition DEFAULT_SETTINGS : Settings.t :=
  {| Settings.defaultLeadTimeDays := 14
   ; Settings.safetyStockDays := 7
   ; Settings.reviewPeriodDays := 7
   ; Settings.lowStockDaysCoverThreshold := 21
   ; Settings.expiryWarningDays := 60
   ; Settings.notificationCooldownHours := 24
   ; Settings.currencySymbol := "R"
   ; Settings.whatsappMode := clickToWhatsApp
   ; Settings.whatsappNumber := ""
   ; Settings.whatsappRecipients := []
   ; Settings.webhookUrl := None
   ; Settings.webhookApiKey := None
   ; Settings.forecastMethod := simpleAverage6Months
   ; Settings.weights := [1; 1; 1; 1; 1; 5]
   ; Settings.lowStockRule := belowDaysCover
   |}.

(** ** The planning calculator ([calculateItemPlanning]) *)

Definition msPerDay : Z := 1000 * 3600 * 24.
Definition msPerHour : Z := 1000 * 3600.

Section PlanningCalculator.

Variables (item : Item.t) (lots : list InventoryLot.t)
          (sales : list SalesHistory.t) (settings : Settings.t)
          (currentDate : Date).

(** *** 1) Filter lots *)

Definition activeLots : list InventoryLot.t :=
  filter (fun l => (InventoryLot.itemId l =? Item.id item)%string
                   && LotStatus_eqb (InventoryLot.status l) available) lots.

(** [l.expiryDate ? new Date(l.expiryDate) > currentDate : true] *)
Definition isNonExpired (l : InventoryLot.t) : bool :=
  match InventoryLot.expiryDate l with
  | None => true
  | Some s =>
      match parseDate s with
      | Some expDate => (getTime currentDate <? expDate)%Z
      | None => false
      end
  end.

Definition isExpiringSoon (l : InventoryLot.t) : bool :=
  match InventoryLot.expiryDate l with
  | None => false
  | Some s =>
      match parseDate s with
      | Some expDate =>
          let diff := inject_Z (expDate - getTime currentDate) / inject_Z msPerDay in
          Js.leb diff (Settings.expiryWarningDays settings) && Js.gtb diff 0
      | None => false
      end
  end.

Definition nonExpiredLots : list InventoryLot.t := filter isNonExpired activeLots.
Definition expiringSoonLots : list InventoryLot.t := filter isExpiringSoon activeLots.

(** *** 2) Available stock *)

Definition availableStock : Js.number :=
  Js.sum_by InventoryLot.quantityRemaining nonExpiredLots.

(** *** 3) Demand forecasting *)

Definition itemSales : list SalesHistory.t :=
  filter (fun s => (SalesHistory.itemId s =? Item.id item)%string) sales.

(** The six calendar months ending with the current one, oldest first. *)
Definition last6Months : list string :=
  rev (map (fun i => monthKey (firstOfMonth (getFullYear currentDate)
                                            (getMonth currentDate - Z.of_nat i)))
           (seq 0 6)).

(** [itemSales.find(s => s.month === month)?.quantitySold || 0] *)
Definition monthSale (month : string) : Js.number :=
  match find (fun s => (SalesHistory.month s =? month)%string) itemSales with
  | Some s => Js.or_else (SalesHistory.quantitySold s) 0
  | None => 0
  end.

(** [settings.weights[idx] || 0] *)
Definition weightAt (idx : nat) : Js.number :=
  match nth_error (Settings.weights settings) idx with
  | Some w => Js.or_else w 0
  | None => 0
  end.

(** The body of [last6Months.forEach((month, idx) => ...)] on the pair
    [(weightedSum, weightSum)]. *)
Definition weightedStep (acc : Js.number * Js.number) (entry : nat * string)
  : Js.number * Js.number :=
  let '(weightedSum, weightSum) := acc in
  let '(idx, month) := entry in
  (weightedSum + monthSale month * weightAt idx, weightSum + weightAt idx).

Definition weightedTotals : Js.number * Js.number :=
  fold_left weightedStep (combine (seq 0 (List.length last6Months)) last6Months) (0, 0).

Definition avgMonthlyDemand : Js.number :=
  match Settings.forecastMethod settings with
  | simpleAverage6Months =>
      let totalSold := Js.sum_by SalesHistory.quantitySold itemSales in
      let len := inject_Z (Z.of_nat (List.length itemSales)) in
      if Js.gtb len 0 then totalSold / Js.Math_max len 1 else 0
  | weightedAverage =>
      let '(weightedSum, weightSum) := weightedTotals in
      if Js.gtb weightSum 0 then weightedSum / weightSum else 0
  end.

Definition dailyDemand : Js.number := avgMonthlyDemand / 30.4.

(** *** 4) Planning parameters *)

Definition safetyStock : Js.number := dailyDemand * Settings.safetyStockDays settings.

Definition leadTime : Js.number :=
  Js.or_else (Item.leadTimeDays item) (Settings.defaultLeadTimeDays settings).

Definition reorderPoint : Js.number := (dailyDemand * leadTime) + safetyStock.

(** *** 5) Suggested order quantity

    The source reassigns one variable [suggested]; each assignment is a
    definition here, in order. *)

Definition preCapSuggested : Js.number :=
  Js.Math_max 0 (reorderPoint + (dailyDemand * Settings.reviewPeriodDays settings)
                 - availableStock).

Definition shelfLifeDays : Js.number :=
  match Item.shelfLifeDays item with
  | Some d => d
  | None => 365
  end.

Definition maxFreshStock : Js.number := dailyDemand * shelfLifeDays * 0.8.
Definition capQty : Js.number := Js.Math_max 0 (maxFreshStock - availableStock).

Definition cappedSuggested : Js.number := Js.Math_min preCapSuggested capQty.
Definition freshnessCapApplied : bool := Js.ltb cappedSuggested preCapSuggested.

(** [if (suggested > 0 && suggested < item.moq) suggested = item.moq] *)
Definition applyMoq (suggested : Js.number) : Js.number :=
  if Js.gtb suggested 0 && Js.ltb suggested (Item.moq item)
  then Item.moq item else suggested.

(** [if (suggested > 0 && item.packSize > 0)
       suggested = Math.ceil(suggested / item.packSize) * item.packSize] *)
Definition applyPack (suggested : Js.number) : Js.number :=
  if Js.gtb suggested 0 && Js.gtb (Item.packSize item) 0
  then Js.Math_ceil (suggested / Item.packSize item) * Item.packSize item
  else suggested.

Definition suggested : Js.number := applyPack (applyMoq cappedSuggested).

(** *** 6) Cover indicators *)

Definition daysCover : Js.number :=
  if Js.gtb dailyDemand 0 then availableStock / dailyDemand else 999.

Definition projectedDaysCoverAfterOrder : Js.number :=
  if Js.gtb dailyDemand 0 then (availableStock + suggested) / dailyDemand else 999.

Definition lowStockFlag : bool :=
  match Settings.lowStockRule settings with
  | belowDaysCover => Js.ltb daysCover (Settings.lowStockDaysCoverThreshold settings)
  | belowReorderPoint => Js.ltb availableStock reorderPoint
  end.

Definition calculateItemPlanning : ItemPlanningView.t :=
  {| ItemPlanningView.item := item
   ; ItemPlanningView.lots := activeLots
   ; ItemPlanningView.sales := itemSales
   ; ItemPlanningView.availableStock := availableStock
   ; ItemPlanningView.avgMonthlyDemand := avgMonthlyDemand
   ; ItemPlanningView.dailyDemand := dailyDemand
   ; ItemPlanningView.safetyStock := safetyStock
   ; ItemPlanningView.reorderPoint := reorderPoint
   ; ItemPlanningView.suggestedOrderQty := suggested
   ; ItemPlanningView.freshnessCapApplied := freshnessCapApplied
   ; ItemPlanningView.freshnessCapQty := capQty
   ; ItemPlanningView.projectedDaysCoverAfterOrder := projectedDaysCoverAfterOrder
   ; ItemPlanningView.daysCover := daysCover
   ; ItemPlanningView.lowStockFlag := lowStockFlag
   ; ItemPlanningView.expiringSoonLots := expiringSoonLots
   |}.

End PlanningCalculator.

(** ** The alert detector ([detectAlerts]) *)

Section AlertDetector.

Variables (existingAlerts : list InventoryAlert.t) (settings : Settings.t)
          (now : Date).

(** [a.lastSentAt &&
     (now.getTime() - new Date(a.lastSentAt).getTime()) / (1000 * 3600)
       < settings.notificationCooldownHours] *)
Definition inCooldown (a : InventoryAlert.t) : bool :=
  match InventoryAlert.lastSentAt a with
  | None => false
  | Some s =>
      match parseDate s with
      | Some sentAt =>
          Js.ltb (inject_Z (getTime now - sentAt) / inject_Z msPerHour)
                 (Settings.notificationCooldownHours settings)
      | None => false
      end
  end.

(** The predicate given to [existingAlerts.find]; the source writes it out
    once with ['lowStock'] and once with ['expiry']. *)
Definition isRecentAlert (itemId : string) (type : AlertType)
                         (a : InventoryAlert.t) : bool :=
  (InventoryAlert.itemId a =? itemId)%string
  && AlertType_eqb (InventoryAlert.type a) type
  && (AlertStatus_eqb (InventoryAlert.status a) pending || inCooldown a).

Definition lowStockAlert (view : ItemPlanningView.t) : InventoryAlert.t :=
  let it := ItemPlanningView.item view in
  {| InventoryAlert.id :=
       ("lowStock_" ++ Item.id it ++ "_" ++ Js.String_of_int (getTime now))%string
   ; InventoryAlert.createdAt := IsoDate (getTime now)
   ; InventoryAlert.itemId := Item.id it
   ; InventoryAlert.type := lowStock
   ; InventoryAlert.message :=
       LowStockMessage (Item.name it) (ItemPlanningView.availableStock view)
                       (Js.Math_round (ItemPlanningView.daysCover view))
   ; InventoryAlert.status := pending
   ; InventoryAlert.lastSentAt := None
   ; InventoryAlert.recipientsSnapshot := None
   |}.

Definition expiryAlert (view : ItemPlanningView.t) : InventoryAlert.t :=
  let it := ItemPlanningView.item view in
  let lotSummaries :=
    map (fun l => (InventoryLot.lotNumber l, InventoryLot.expiryDate l))
        (ItemPlanningView.expiringSoonLots view) in
  {| InventoryAlert.id :=
       ("expiry_" ++ Item.id it ++ "_" ++ Js.String_of_int (getTime now))%string
   ; InventoryAlert.createdAt := IsoDate (getTime now)
   ; InventoryAlert.itemId := Item.id it
   ; InventoryAlert.type := expiry
   ; InventoryAlert.message := ExpiryMessage (Item.name it) lotSummaries
   ; InventoryAlert.status := pending
   ; InventoryAlert.lastSentAt := None
   ; InventoryAlert.recipientsSnapshot := None
   |}.

(** 1) Low stock check: what one view pushes on [newAlerts]. *)
Definition lowStockCheck (view : ItemPlanningView.t) : list InventoryAlert.t :=
  if ItemPlanningView.lowStockFlag view then
    match find (isRecentAlert (Item.id (ItemPlanningView.item view)) lowStock)
               existingAlerts with
    | Some _ => []
    | None => [lowStockAlert view]
    end
  else [].

(** 2) Expiry check. *)
Definition expiryCheck (view : ItemPlanningView.t) : list InventoryAlert.t :=
  match ItemPlanningView.expiringSoonLots view with
  | [] => []
  | _ :: _ =>
      match find (isRecentAlert (Item.id (ItemPlanningView.item view)) expiry)
                 existingAlerts with
      | Some _ => []
      | None => [expiryAlert view]
      end
  end.

(** The body of [planningViews.forEach(view => ...)] on [newAlerts]. *)
Definition detectStep (newAlerts : list InventoryAlert.t)
                      (view : ItemPlanningView.t) : list InventoryAlert.t :=
  (newAlerts ++ lowStockCheck view) ++ expiryCheck view.

Definition detectAlerts (planningViews : list ItemPlanningView.t)
  : list InventoryAlert.t :=
  fold_left detectStep planningViews [].

(** What the two checks of one view push, by alert type. *)
Definition checkOf (type : AlertType) (view : ItemPlanningView.t)
  : list InventoryAlert.t :=
  match type with
  | lowStock => lowStockCheck view
  | expiry => expiryCheck view
  end.

(** The alert a view gets for an alert type. *)
Definition alertOf (type : AlertType) (view : ItemPlanningView.t) : InventoryAlert.t :=
  match type with
  | lowStock => lowStockAlert view
  | expiry => expiryAlert view
  end.

End AlertDetector.

(** ** The caller's filter over the detector's output

    The alert-detection effect of the application shell calls
    [detectAlerts(planningViews, currentAlerts, settings)] and, before it
    persists the result, drops from it what [currentAlerts] already covers. *)

Section UniqueAlerts.

Variables (currentAlerts : list InventoryAlert.t) (settings : Settings.t)
          (now : Date).

(** [(a.lastSentAt || a.createdAt) &&
     (now.getTime() - new Date(a.lastSentAt || a.createdAt).getTime())
       / (1000 * 3600) < settings.notificationCooldownHours] *)
Definition inCooldownSinceSentOrCreated (a : InventoryAlert.t) : bool :=
  let stamp :=
    match InventoryAlert.lastSentAt a with
    | Some s => s
    | None => InventoryAlert.createdAt a
    end in
  match parseDate stamp with
  | Some at_ =>
      Js.ltb (inject_Z (getTime now - at_) / inject_Z msPerHour)
             (Settings.notificationCooldownHours settings)
  | None => false
  end.

(** [newAlerts.filter(na => !currentAlerts.find(a => ...))] *)
Definition uniqueAlerts (newAlerts : list InventoryAlert.t) : list InventoryAlert.t :=
  filter
    (fun na =>
       match find (fun a =>
                     (InventoryAlert.itemId a =? InventoryAlert.itemId na)%string
                     && AlertType_eqb (InventoryAlert.type a) (InventoryAlert.type na)
                     && (AlertStatus_eqb (InventoryAlert.status a) pending
                         || inCooldownSinceSentOrCreated a))
                  currentAlerts with
       | Some _ => false
       | None => true
       end)
    newAlerts.

End UniqueAlerts.

(** ** Notions the properties are stated with *)

(** The condition under which a view asks for an alert of a type. *)
Definition qualifies (type : AlertType) (view : ItemPlanningView.t) : Prop :=
  match type with
  | lowStock => ItemPlanningView.lowStockFlag view = true
  | expiry => ItemPlanningView.expiringSoonLots view <> []
  end.

(** [sentAt] lies strictly less than [hours] hours before [now]. *)
Definition sentWithin (hours : Q) (now : Date) (sentAt : Z) : Prop :=
  inject_Z (getTime now - sentAt) < hours * inject_Z msPerHour.

(** [{ ...s, lowStockDaysCoverThreshold: x }]. *)
Definition withThreshold (s : Settings.t) (x : Q) : Settings.t :=
  {| Settings.defaultLeadTimeDays := Settings.defaultLeadTimeDays s
   ; Settings.safetyStockDays := Settings.safetyStockDays s
   ; Settings.reviewPeriodDays := Settings.reviewPeriodDays s
   ; Settings.lowStockDaysCoverThreshold := x
   ; Settings.expiryWarningDays := Settings.expiryWarningDays s
   ; Settings.notificationCooldownHours := Settings.notificationCooldownHours s
   ; Settings.currencySymbol := Settings.currencySymbol s
   ; Settings.whatsappMode := Settings.whatsappMode s
   ; Settings.whatsappNumber := Settings.whatsappNumber s
   ; Settings.whatsappRecipients := Settings.whatsappRecipients s
   ; Settings.webhookUrl := Settings.webhookUrl s
   ; Settings.webhookApiKey := Settings.webhookApiKey s
   ; Settings.forecastMethod := Settings.forecastMethod s
   ; Settings.weights := Settings.weights s
   ; Settings.lowStockRule := Settings.lowStockRule s
   |}.

(** [{ ...s, forecastMethod: m }]. *)
Definition withForecastMethod (s : Settings.t) (m : ForecastMethod) : Settings.t :=
  {| Settings.defaultLeadTimeDays := Settings.defaultLeadTimeDays s
   ; Settings.safetyStockDays := Settings.safetyStockDays s
   ; Settings.reviewPeriodDays := Settings.reviewPeriodDays s
   ; Settings.lowStockDaysCoverThreshold := Settings.lowStockDaysCoverThreshold s
   ; Settings.expiryWarningDays := Settings.expiryWarningDays s
   ; Settings.notificationCooldownHours := Settings.notificationCooldownHours s
   ; Settings.currencySymbol := Settings.currencySymbol s
   ; Settings.whatsappMode := Settings.whatsappMode s
   ; Settings.whatsappNumber := Settings.whatsappNumber s
   ; Settings.whatsappRecipients := Settings.whatsappRecipients s
   ; Settings.webhookUrl := Settings.webhookUrl s
   ; Settings.webhookApiKey := Settings.webhookApiKey s
   ; Settings.forecastMethod := m
   ; Settings.weights := Settings.weights s
   ; Settings.lowStockRule := Settings.lowStockRule s
   |}.

(** [{ ...it, shelfLifeDays: d }]. *)
Definition withShelfLife (it : Item.t) (d : option Q) : Item.t :=
  {| Item.id := Item.id it
   ; Item.skuCode := Item.skuCode it
   ; Item.name := Item.name it
   ; Item.category := Item.category it
   ; Item.packSize := Item.packSize it
   ; Item.leadTimeDays := Item.leadTimeDays it
   ; Item.moq := Item.moq it
   ; Item.costPerUnit := Item.costPerUnit it
   ; Item.notes := Item.notes it
   ; Item.shelfLifeDays := d
   |}.

(** [{ ...s, lowStockRule: r }]. *)
Definition withLowStockRule (s : Settings.t) (r : LowStockRule) : Settings.t :=
  {| Settings.defaultLeadTimeDays := Settings.defaultLeadTimeDays s
   ; Settings.safetyStockDays := Settings.safetyStockDays s
   ; Settings.reviewPeriodDays := Settings.reviewPeriodDays s
   ; Settings.lowStockDaysCoverThreshold := Settings.lowStockDaysCoverThreshold s
   ; Settings.expiryWarningDays := Settings.expiryWarningDays s
   ; Settings.notificationCooldownHours := Settings.notificationCooldownHours s
   ; Settings.currencySymbol := Settings.currencySymbol s
   ; Settings.whatsappMode := Settings.whatsappMode s
   ; Settings.whatsappNumber := Settings.whatsappNumber s
   ; Settings.whatsappRecipients := Settings.whatsappRecipients s
   ; Settings.webhookUrl := Settings.webhookUrl s
   ; Settings.webhookApiKey := Settings.webhookApiKey s
   ; Settings.forecastMethod := Settings.forecastMethod s
   ; Settings.weights := Settings.weights s
   ; Settings.lowStockRule := r
   |}.

(** [{ ...s, expiryWarningDays: x }]. *)
Definition withExpiryWarningDays (s : Settings.t) (x : Q) : Settings.t :=
  {| Settings.defaultLeadTimeDays := Settings.defaultLeadTimeDays s
   ; Settings.safetyStockDays := Settings.safetyStockDays s
   ; Settings.reviewPeriodDays := Settings.reviewPeriodDays s
   ; Settings.lowStockDaysCoverThreshold := Settings.lowStockDaysCoverThreshold s
   ; Settings.expiryWarningDays := x
   ; Settings.notificationCooldownHours := Settings.notificationCooldownHours s
   ; Settings.currencySymbol := Settings.currencySymbol s
   ; Settings.whatsappMode := Settings.whatsappMode s
   ; Settings.whatsappNumber := Settings.whatsappNumber s
   ; Settings.whatsappRecipients := Settings.whatsappRecipients s
   ; Settings.webhookUrl := Settings.webhookUrl s
   ; Settings.webhookApiKey := Settings.webhookApiKey s
   ; Settings.forecastMethod := Settings.forecastMethod s
   ; Settings.weights := Settings.weights s
   ; Settings.lowStockRule := Settings.lowStockRule s
   |}.

(** ** Concrete inputs used by the examples *)

(** Product "A", lead time 14 days, shelf life 365 days. *)
Definition feedItemWith (packSize moq : Q) : Item.t :=
  {| Item.id := "A"
   ; Item.skuCode := "SKU-A"
   ; Item.name := "Mineral feed"
   ; Item.category := Other
   ; Item.packSize := packSize
   ; Item.leadTimeDays := 14
   ; Item.moq := moq
   ; Item.costPerUnit := 10
   ; Item.notes := None
   ; Item.shelfLifeDays := Some 365
   |}.

Definition feedItem : Item.t := feedItemWith 25 0.

(** An available lot of product "A" with [qty] units left. *)
Definition feedLot (lotId : string) (expiryDate : option DateString) (qty : Q)
  : InventoryLot.t :=
  {| InventoryLot.id := lotId
   ; InventoryLot.itemId := "A"
   ; InventoryLot.lotNumber := lotId
   ; InventoryLot.expiryDate := expiryDate
   ; InventoryLot.quantityRemaining := qty
   ; InventoryLot.receivedDate := None
   ; InventoryLot.quantityReceived := None
   ; InventoryLot.status := available
   ; InventoryLot.notes := None
   |}.

Definition feedSale (month : string) (qty : Q) : SalesHistory.t :=
  {| SalesHistory.id := month
   ; SalesHistory.itemId := "A"
   ; SalesHistory.month := month
   ; SalesHistory.quantitySold := qty
   |}.

(** 2024-06-15T00:00:00Z, read in a UTC locale. *)
Definition midJune2024 : Date :=
  {| getTime := 1718409600000; getFullYear := 2024; getMonth := 5 |}.

(** The instant [hours] hours after (before, when negative) [midJune2024]. *)
Definition hoursFromMidJune (hours : Z) : Z :=
  (getTime midJune2024 + hours * msPerHour)%Z.

(** An alert on product "A". *)
Definition feedAlert (type : AlertType) (status : AlertStatus)
           (createdAt : Z) (lastSentAt : option Z) : InventoryAlert.t :=
  {| InventoryAlert.id := "alert-1"
   ; InventoryAlert.createdAt := IsoDate createdAt
   ; InventoryAlert.itemId := "A"
   ; InventoryAlert.type := type
   ; InventoryAlert.message := LowStockMessage "Mineral feed" 100 10
   ; InventoryAlert.status := status
   ; InventoryAlert.lastSentAt := option_map IsoDate lastSentAt
   ; InventoryAlert.recipientsSnapshot := None
   |}.

(** Product "A" with 100 units in stock and a daily demand of 10: ten days
    of cover, below the default threshold of 21. *)
Definition lowView : ItemPlanningView.t :=
  calculateItemPlanning feedItem [feedLot "L1" None 100] [feedSale "2024-05" 304]
    DEFAULT_SETTINGS midJune2024.

(** ** The callers of the two operations

    The application shell builds the planning views and runs the alert
    detection; the dashboard, the alert centre and the stock take read or
    feed what the two operations compute.  Writes to the store are taken to
    succeed. *)

(** [items.map(item => calculateItemPlanning(item, lots, sales, settings))];
    the clock readings of one pass over the items are taken as the one
    [currentDate]. *)
Definition planningViews (items : list Item.t) (lots : list InventoryLot.t)
           (sales : list SalesHistory.t) (settings : Settings.t)
           (currentDate : Date) : list ItemPlanningView.t :=
  map (fun item => calculateItemPlanning item lots sales settings currentDate) items.

(** [alerts.filter(a => a.status === 'pending').length] *)
Definition pendingAlertCount (alerts : list InventoryAlert.t) : nat :=
  List.length (filter (fun a => AlertStatus_eqb (InventoryAlert.status a) pending) alerts).

(** The alert-detection effect of the application shell once loading is
    over, as the list of alerts it leaves in the state: [now] is the
    effect's own reading of the clock, [nowDetect] the later one of
    [detectAlerts]. *)
Definition alertEffect (alerts : list InventoryAlert.t)
           (views : list ItemPlanningView.t) (settings : Settings.t)
           (now nowDetect : Date) : list InventoryAlert.t :=
  match detectAlerts alerts settings nowDetect views with
  | [] => alerts
  | newAlerts =>
      match uniqueAlerts alerts settings now newAlerts with
      | [] => alerts
      | unique => alerts ++ unique
      end
  end.

(** The dashboard's counters. *)
Definition lowStockCount (views : list ItemPlanningView.t) : nat :=
  List.length (filter ItemPlanningView.lowStockFlag views).

Definition expiringSoonCount (views : list ItemPlanningView.t) : nat :=
  fold_left (fun sum v => (sum + List.length (ItemPlanningView.expiringSoonLots v))%nat)
            views 0%nat.

(** *** The alert centre: [handleAction] *)

(** The second argument of [handleAction]: ['sent'] or ['dismissed']. *)
Inductive AlertAction : Type := markSent | markDismissed.

Definition AlertAction_status (action : AlertAction) : AlertStatus :=
  match action with
  | markSent => sent
  | markDismissed => dismissed
  end.

(** [updatedAlert] of [handleAction(alertObj, status)], at the clock reading
    [now]. *)
Definition handleAction (settings : Settings.t) (now : Date)
           (alertObj : InventoryAlert.t) (action : AlertAction) : InventoryAlert.t :=
  {| InventoryAlert.id := InventoryAlert.id alertObj
   ; InventoryAlert.createdAt := InventoryAlert.createdAt alertObj
   ; InventoryAlert.itemId := InventoryAlert.itemId alertObj
   ; InventoryAlert.type := InventoryAlert.type alertObj
   ; InventoryAlert.message := InventoryAlert.message alertObj
   ; InventoryAlert.status := AlertAction_status action
   ; InventoryAlert.lastSentAt :=
       match action with
       | markSent => Some (IsoDate (getTime now))
       | markDismissed => InventoryAlert.lastSentAt alertObj
       end
   ; InventoryAlert.recipientsSnapshot :=
       match action with
       | markSent =>
           Some (Settings.whatsappNumber settings :: Settings.whatsappRecipients settings)
       | markDismissed => InventoryAlert.recipientsSnapshot alertObj
       end
   |}.

(** *** The stock take: [handleSave] *)

Inductive CountReason : Type := adjustment | damage | correction | routine.

Module StockCountEntry.
Record t : Type := mk
  { id : string
  ; date : DateString
  ; lotId : string
  ; countedQty : Js.number
  ; reason : CountReason
  ; notes : string
  }.
End StockCountEntry.

(** What [handleSave] leaves behind: a status message of type ['error'], or
    the audit entry put in [stockCounts] and the lots after [updatedLot] was
    put under its (existing) id. *)
Inductive StockTakeOutcome : Type :=
| StockTakeError (text : string)
| StockTakeSaved (entry : StockCountEntry.t) (lots : list InventoryLot.t).

(** [{ ...lot, quantityRemaining: Number(countedQty) }] *)
Definition withQuantityRemaining (lot : InventoryLot.t) (qty : Js.number)
  : InventoryLot.t :=
  {| InventoryLot.id := InventoryLot.id lot
   ; InventoryLot.itemId := InventoryLot.itemId lot
   ; InventoryLot.lotNumber := InventoryLot.lotNumber lot
   ; InventoryLot.expiryDate := InventoryLot.expiryDate lot
   ; InventoryLot.quantityRemaining := qty
   ; InventoryLot.receivedDate := InventoryLot.receivedDate lot
   ; InventoryLot.quantityReceived := InventoryLot.quantityReceived lot
   ; InventoryLot.status := InventoryLot.status lot
   ; InventoryLot.notes := InventoryLot.notes lot
   |}.

(** [db.put('lots', updatedLot)] for a lot whose id is in the store: the
    record under that id is replaced where it stands. *)
Definition putLot (updatedLot : InventoryLot.t) (lots : list InventoryLot.t)
  : list InventoryLot.t :=
  map (fun l => if (InventoryLot.id l =? InventoryLot.id updatedLot)%string
                then updatedLot else l) lots.

(** [handleSave] of the stock take. [countedQty] is the value of a number
    input: [None] for the empty string, else the number it holds; [uuid] is
    what [crypto.randomUUID()] returns and [now] the clock reading. *)
Definition StockTake_handleSave (lots : list InventoryLot.t)
           (selectedLotId : string) (countedQty : option Js.number)
           (reason : CountReason) (notes : string) (uuid : string) (now : Date)
  : StockTakeOutcome :=
  if (selectedLotId =? "")%string then
    StockTakeError "Please select a lot to count."
  else
    match countedQty with
    | None => StockTakeError "Please enter a valid counted quantity (0 or greater)."
    | Some qty =>
        if Js.ltb qty 0 then
          StockTakeError "Please enter a valid counted quantity (0 or greater)."
        else
          match find (fun l => (InventoryLot.id l =? selectedLotId)%string) lots with
          | None => StockTakeError "Error updating stock count. Please try again."
          | Some lot =>
              let entry :=
                {| StockCountEntry.id := uuid
                 ; StockCountEntry.date := IsoDate (getTime now)
                 ; StockCountEntry.lotId := selectedLotId
                 ; StockCountEntry.countedQty := qty
                 ; StockCountEntry.reason := reason
                 ; StockCountEntry.notes := notes
                 |} in
              StockTakeSaved entry (putLot (withQuantityRemaining lot qty) lots)
          end
    end.

(** The alerts of type ['lowStock'] in a list are those passing this test. *)
Definition isLowStockAlert (n : InventoryAlert.t) : bool :=
  AlertType_eqb (InventoryAlert.type n) lowStock.


(** The records whose month is one of the six months of the forecast. *)
Definition inLast6Months (currentDate : Date) (s : SalesHistory.t) : bool :=
  existsb (fun month => (SalesHistory.month s =? month)%string)
          (last6Months currentDate).

(** * Properties *)

(** ** Facts about the JavaScript helpers *)

Lemma ltb_true (a b : Q) : a < b -> Js.ltb a b = true.
Proof.
  intros H. unfold Js.ltb. destruct (Qle_bool b a) eqn:E; [|reflexivity].
  apply Qle_bool_iff in E. lra.
Qed.

Lemma ltb_false (a b : Q) : b <= a -> Js.ltb a b = false.
Proof.
  intros H. unfold Js.ltb. apply Qle_bool_iff in H. now rewrite H.
Qed.

Lemma ltb_lt (a b : Q) : Js.ltb a b = true <-> a < b.
Proof.
  split; [|apply ltb_true].
  destruct (Qlt_le_dec a b) as [H|H]; [trivial|].
  rewrite (ltb_false _ _ H). discriminate.
Qed.

Lemma ltb_ge (a b : Q) : Js.ltb a b = false <-> b <= a.
Proof.
  split; [|apply ltb_false].
  destruct (Qlt_le_dec a b) as [H|H]; [|trivial].
  rewrite (ltb_true _ _ H). discriminate.
Qed.

Lemma gtb_gt (a b : Q) : Js.gtb a b = true <-> b < a.
Proof. apply ltb_lt. Qed.

Lemma gtb_le (a b : Q) : Js.gtb a b = false <-> a <= b.
Proof. apply ltb_ge. Qed.

Lemma leb_le (a b : Q) : Js.leb a b = true <-> a <= b.
Proof. apply Qle_bool_iff. Qed.

(** Split on a comparison the code makes, keeping the fact in the context. *)
Ltac case_ltb a b :=
  let H := fresh "Hcmp" in
  destruct (Qlt_le_dec a b) as [H|H];
  [ rewrite ?(ltb_true a b H) in * | rewrite ?(ltb_false a b H) in * ].

Ltac case_gtb a b := unfold Js.gtb in *; case_ltb b a.

Lemma Math_max_cases (a b : Q) :
  (a < b /\ Js.Math_max a b = b) \/ (b <= a /\ Js.Math_max a b = a).
Proof. unfold Js.Math_max. case_ltb a b; auto. Qed.

Lemma Math_min_cases (a b : Q) :
  (b < a /\ Js.Math_min a b = b) \/ (a <= b /\ Js.Math_min a b = a).
Proof. unfold Js.Math_min. case_ltb b a; auto. Qed.

Lemma Math_max_lower (a b : Q) : a <= Js.Math_max a b.
Proof. destruct (Math_max_cases a b) as [[H ->]|[H ->]]; lra. Qed.

Lemma Math_max_mono (a b c : Q) : b <= c -> Js.Math_max a b <= Js.Math_max a c.
Proof.
  intros H.
  destruct (Math_max_cases a b) as [[? ->]|[? ->]];
  destruct (Math_max_cases a c) as [[? ->]|[? ->]]; lra.
Qed.

Lemma Math_min_mono (a b c : Q) : b <= c -> Js.Math_min a b <= Js.Math_min a c.
Proof.
  intros H.
  destruct (Math_min_cases a b) as [[? ->]|[? ->]];
  destruct (Math_min_cases a c) as [[? ->]|[? ->]]; lra.
Qed.

Lemma Math_min_nonneg (a b : Q) : 0 <= a -> 0 <= b -> 0 <= Js.Math_min a b.
Proof. intros. destruct (Math_min_cases a b) as [[? ->]|[? ->]]; lra. Qed.

(** Rounding up to a multiple of a positive pack size does not go below. *)
Lemma ceil_multiple_ge (x p : Q) : 0 < p -> x <= Js.Math_ceil (x / p) * p.
Proof.
  intros Hp. unfold Js.Math_ceil.
  assert (Hx : x == (x / p) * p) by (field; lra).
  rewrite Hx at 1.
  apply Qmult_le_compat_r; [apply Qle_ceiling | lra].
Qed.

Lemma ceil_multiple_mono (x y p : Q) :
  0 < p -> x <= y -> Js.Math_ceil (x / p) * p <= Js.Math_ceil (y / p) * p.
Proof.
  intros Hp Hxy. unfold Js.Math_ceil.
  apply Qmult_le_compat_r; [|lra].
  rewrite <- Zle_Qle. apply Qceiling_resp_le.
  apply Qmult_le_compat_r; [assumption|].
  apply Qlt_le_weak, Qinv_lt_0_compat, Hp.
Qed.

Lemma or_else_zero (x : Q) : Js.or_else x 0 == x.
Proof.
  unfold Js.or_else. destruct (Qeq_bool x 0) eqn:E; [|reflexivity].
  apply Qeq_bool_iff in E. now rewrite E.
Qed.

(** ** The MOQ raise and the pack rounding, step by step *)

Section RoundingSteps.

Variable item : Item.t.

Lemma applyMoq_nonneg (x : Q) : 0 <= x -> 0 <= applyMoq item x.
Proof.
  intros Hx. unfold applyMoq.
  case_gtb x 0; simpl; [|lra].
  case_ltb x (Item.moq item); lra.
Qed.

Lemma applyMoq_nonpos (x : Q) : x <= 0 -> applyMoq item x = x.
Proof.
  intros Hx. unfold applyMoq, Js.gtb. now rewrite (ltb_false _ _ Hx).
Qed.

Lemma applyPack_nonpos (x : Q) : x <= 0 -> applyPack item x = x.
Proof.
  intros Hx. unfold applyPack, Js.gtb. now rewrite (ltb_false _ _ Hx).
Qed.

Lemma applyMoq_pos (x : Q) : 0 < applyMoq item x -> 0 < x.
Proof.
  unfold applyMoq. case_gtb x 0; simpl; [trivial|]. intros. lra.
Qed.


Lemma applyMoq_ge (x : Q) : x <= applyMoq item x.
Proof.
  unfold applyMoq. case_gtb x 0; simpl; [|lra].
  case_ltb x (Item.moq item); lra.
Qed.

Lemma applyMoq_mono (x y : Q) : x <= y -> applyMoq item x <= applyMoq item y.
Proof.
  intros Hxy. destruct (Qlt_le_dec 0 x) as [Hx|Hx].
  - unfold applyMoq, Js.gtb.
    rewrite (ltb_true _ _ Hx), (ltb_true 0 y) by lra. simpl.
    case_ltb x (Item.moq item); case_ltb y (Item.moq item); lra.
  - rewrite (applyMoq_nonpos x Hx).
    pose proof (applyMoq_ge y). lra.
Qed.

Lemma applyPack_ge (x : Q) : x <= applyPack item x.
Proof.
  unfold applyPack. case_gtb x 0; simpl; [|lra].
  case_gtb (Item.packSize item) 0; [|lra].
  now apply ceil_multiple_ge.
Qed.

Lemma applyPack_pos (x : Q) : 0 < applyPack item x -> 0 < x.
Proof.
  unfold applyPack. case_gtb x 0; simpl; [trivial|]. intros. lra.
Qed.


Lemma applyPack_mono (x y : Q) : x <= y -> applyPack item x <= applyPack item y.
Proof.
  intros Hxy. destruct (Qlt_le_dec 0 x) as [Hx|Hx].
  - unfold applyPack, Js.gtb.
    rewrite (ltb_true _ _ Hx), (ltb_true 0 y) by lra. simpl.
    case_ltb 0 (Item.packSize item); [|lra].
    now apply ceil_multiple_mono.
  - rewrite (applyPack_nonpos x Hx).
    pose proof (applyPack_ge y). lra.
Qed.

End RoundingSteps.

(** ** Properties of the suggested order quantity *)

Section SuggestedOrderQty.

Variables (item : Item.t) (lots : list InventoryLot.t)
          (sales : list SalesHistory.t) (settings : Settings.t)
          (currentDate : Date).

Lemma preCapSuggested_nonneg :
  0 <= preCapSuggested item lots sales settings currentDate.
Proof. apply Math_max_lower. Qed.

Lemma capQty_nonneg : 0 <= capQty item lots sales settings currentDate.
Proof. apply Math_max_lower. Qed.

Lemma cappedSuggested_nonneg :
  0 <= cappedSuggested item lots sales settings currentDate.
Proof.
  apply Math_min_nonneg; [apply preCapSuggested_nonneg | apply capQty_nonneg].
Qed.

(** C5. For every product, lots, sales history, settings and current date,
    the [suggestedOrderQty] of the planning view is at least 0. *)
Theorem suggestedOrderQty_nonneg :
  0 <= ItemPlanningView.suggestedOrderQty
         (calculateItemPlanning item lots sales settings currentDate).
Proof.
  cbn [ItemPlanningView.suggestedOrderQty calculateItemPlanning]. unfold suggested.
  eapply Qle_trans; [|apply applyPack_ge].
  apply applyMoq_nonneg, cappedSuggested_nonneg.
Qed.


(** C10. Zero demand never triggers an order: when [dailyDemand] is 0 and
    [availableStock] is not negative, the final [suggestedOrderQty] is 0,
    whatever [moq] and [packSize] are. *)
Theorem zero_demand_suggests_nothing :
  ItemPlanningView.dailyDemand
    (calculateItemPlanning item lots sales settings currentDate) == 0 ->
  0 <= ItemPlanningView.availableStock
         (calculateItemPlanning item lots sales settings currentDate) ->
  ItemPlanningView.suggestedOrderQty
    (calculateItemPlanning item lots sales settings currentDate) == 0.
Proof.
  cbn [ItemPlanningView.suggestedOrderQty ItemPlanningView.dailyDemand
       ItemPlanningView.availableStock calculateItemPlanning].
  intros Hd Ha.
  assert (Hcap : cappedSuggested item lots sales settings currentDate <= 0).
  { unfold cappedSuggested, capQty, maxFreshStock.
    set (pre := preCapSuggested item lots sales settings currentDate).
    set (fresh := dailyDemand item sales settings currentDate
                  * shelfLifeDays item * 0.8).
    assert (Hf : fresh == 0) by (unfold fresh; rewrite Hd; ring).
    destruct (Math_max_cases 0 (fresh - availableStock item lots currentDate))
      as [[H1 E1]|[H1 E1]]; rewrite E1; [lra|].
    destruct (Math_min_cases pre 0) as [[H2 ->]|[H2 ->]]; lra. }
  pose proof cappedSuggested_nonneg as Hcap0.
  unfold suggested.
  rewrite (applyMoq_nonpos item _ Hcap), (applyPack_nonpos item _ Hcap). lra.
Qed.

End SuggestedOrderQty.


(** In that input the raw quantity 180 is raised to the MOQ of 190 and then
    rounded up to 200, eight packs of 25. *)
Example moq_then_pack_values :
  ItemPlanningView.suggestedOrderQty
    (calculateItemPlanning (feedItemWith 25 190) [feedLot "L1" None 100]
       [feedSale "2024-05" 304] DEFAULT_SETTINGS midJune2024) == 200.
Proof. vm_compute. reflexivity. Qed.

(** No sales, nothing in stock, a MOQ of 50: nothing is ordered. *)
Lemma zero_demand_suggests_nothing_witness :
  ItemPlanningView.suggestedOrderQty
    (calculateItemPlanning (feedItemWith 25 50) [] [] DEFAULT_SETTINGS midJune2024)
  == 0.
Proof.
  apply (zero_demand_suggests_nothing (feedItemWith 25 50) [] []
           DEFAULT_SETTINGS midJune2024).
  - vm_compute. reflexivity.
  - vm_compute. discriminate.
Defined.

Example last6Months_midJune2024 :
  last6Months midJune2024
  = ["2024-01"; "2024-02"; "2024-03"; "2024-04"; "2024-05"; "2024-06"]%string.
Proof. reflexivity. Qed.

Example last6Months_across_new_year :
  last6Months {| getTime := 1707955200000; getFullYear := 2024; getMonth := 1 |}
  = ["2023-09"; "2023-10"; "2023-11"; "2023-12"; "2024-01"; "2024-02"]%string.
Proof. reflexivity. Qed.

(** The scenario of the specification: daily demand 2, stock 10, reorder
    point 20 and a review period of 7 days give a raw quantity of 24, which
    a MOQ of 25 raises to 25 (pack size 1, shelf life long enough). *)
Example moq_scenario :
  let it := {| Item.id := "A"; Item.skuCode := "SKU-A"; Item.name := "Mineral feed"
             ; Item.category := Other; Item.packSize := 1; Item.leadTimeDays := 3
             ; Item.moq := 25; Item.costPerUnit := 10; Item.notes := None
             ; Item.shelfLifeDays := Some 365 |} in
  let v := calculateItemPlanning it [feedLot "L1" None 10]
             [feedSale "2024-06" 60.8] DEFAULT_SETTINGS midJune2024 in
  ItemPlanningView.dailyDemand v == 2
  /\ ItemPlanningView.reorderPoint v == 20
  /\ ItemPlanningView.suggestedOrderQty v == 25.
Proof. vm_compute. repeat split. Qed.

(** ** Demand, cover and the low-stock flag *)

Section DemandAndCover.

Variables (item : Item.t) (lots : list InventoryLot.t)
          (sales : list SalesHistory.t) (settings : Settings.t)
          (currentDate : Date).

(** C6, as the code has it. [daysCover] is 999 exactly when [dailyDemand]
    is not positive (the sentinel) or the quotient itself is 999, that is
    [availableStock == 999 * dailyDemand]; in particular [dailyDemand == 0]
    gives 999. *)
Theorem daysCover_sentinel_iff :
  ItemPlanningView.daysCover
    (calculateItemPlanning item lots sales settings currentDate) == 999
  <-> (ItemPlanningView.dailyDemand
         (calculateItemPlanning item lots sales settings currentDate) <= 0
       \/ ItemPlanningView.availableStock
            (calculateItemPlanning item lots sales settings currentDate)
          == 999 * ItemPlanningView.dailyDemand
                     (calculateItemPlanning item lots sales settings currentDate)).
Proof.
  simpl. unfold daysCover.
  set (dd := dailyDemand item sales settings currentDate).
  set (av := availableStock item lots currentDate).
  case_gtb dd 0.
  - split.
    + intros H. right.
      assert (E : av == (av / dd) * dd) by (field; lra).
      rewrite E, H. reflexivity.
    + intros [H|H]; [lra|]. rewrite H. field. lra.
  - split; [now left | reflexivity].
Qed.

Lemma itemSales_nil :
  (forall s, In s sales -> SalesHistory.itemId s <> Item.id item) ->
  itemSales item sales = [].
Proof.
  intros H. unfold itemSales.
  induction sales as [|s rest IH]; [reflexivity|]. simpl.
  destruct (String.eqb_spec (SalesHistory.itemId s) (Item.id item)) as [E|E].
  - exfalso. apply (H s); [now left | exact E].
  - apply IH. intros s' Hs'. apply H. now right.
Qed.

(** Without sales every month contributes [0 * weight] to [weightedSum]. *)
Lemma weightedStep_no_sales (entries : list (nat * string)) (acc : Q * Q) :
  itemSales item sales = [] ->
  fst acc == 0 ->
  fst (fold_left (weightedStep item sales settings) entries acc) == 0.
Proof.
  intros Hnil. revert acc.
  induction entries as [|[idx month] rest IH]; intros [ws w] Hacc; [exact Hacc|].
  simpl. apply IH. simpl in *.
  unfold monthSale. rewrite Hnil. simpl. rewrite Hacc. ring.
Qed.

Lemma avgMonthlyDemand_no_sales :
  itemSales item sales = [] ->
  avgMonthlyDemand item sales settings currentDate == 0.
Proof.
  intros Hnil. unfold avgMonthlyDemand.
  destruct (Settings.forecastMethod settings).
  - rewrite Hnil. reflexivity.
  - unfold weightedTotals.
    pose proof (weightedStep_no_sales
                  (combine (seq 0 (List.length (last6Months currentDate)))
                           (last6Months currentDate)) (0, 0) Hnil) as H.
    destruct (fold_left _ _ _) as [ws w]. simpl in H.
    destruct (Js.gtb w 0); [|reflexivity].
    rewrite H by reflexivity. unfold Qdiv. ring.
Qed.

(** C7, as the code has it. A product with no sales record (under either
    forecast method) has [avgMonthlyDemand = 0], [dailyDemand = 0] and
    [daysCover = 999]; under the [belowDaysCover] rule its [lowStockFlag] is
    false exactly when [lowStockDaysCoverThreshold <= 999]. *)
Theorem no_sales_no_demand :
  (forall s, In s sales -> SalesHistory.itemId s <> Item.id item) ->
  ItemPlanningView.avgMonthlyDemand
    (calculateItemPlanning item lots sales settings currentDate) == 0
  /\ ItemPlanningView.dailyDemand
       (calculateItemPlanning item lots sales settings currentDate) == 0
  /\ ItemPlanningView.daysCover
       (calculateItemPlanning item lots sales settings currentDate) == 999
  /\ (Settings.lowStockRule settings = belowDaysCover ->
      (ItemPlanningView.lowStockFlag
         (calculateItemPlanning item lots sales settings currentDate) = false
       <-> Settings.lowStockDaysCoverThreshold settings <= 999)).
Proof.
  intros Hnone. apply itemSales_nil in Hnone.
  pose proof (avgMonthlyDemand_no_sales Hnone) as Havg.
  assert (Hd : dailyDemand item sales settings currentDate == 0).
  { unfold dailyDemand. rewrite Havg. reflexivity. }
  assert (Hc : daysCover item lots sales settings currentDate = 999).
  { unfold daysCover, Js.gtb. rewrite ltb_false; [reflexivity | lra]. }
  simpl. repeat split; try assumption.
  - rewrite Hc. reflexivity.
  - unfold lowStockFlag. rewrite H, Hc. apply ltb_ge.
  - unfold lowStockFlag. rewrite H, Hc. apply ltb_ge.
Qed.

End DemandAndCover.

(** C6, the claim as stated fails: 304 units sold in the one recorded month
    give a daily demand of 10, and 9990 units in stock then last 999 days. *)
Lemma daysCover_999_with_demand :
  let v := calculateItemPlanning feedItem [feedLot "L1" None 9990]
             [feedSale "2024-05" 304] DEFAULT_SETTINGS midJune2024 in
  ~ (ItemPlanningView.daysCover v == 999 <-> ItemPlanningView.dailyDemand v == 0).
Proof.
  intros v [H _].
  assert (Hc : ItemPlanningView.daysCover v == 999) by (vm_compute; reflexivity).
  apply H in Hc. vm_compute in Hc. discriminate.
Qed.

(** C7, the claim as stated fails: with no sales and a threshold of 1000
    days the sentinel cover of 999 is below the threshold, and the product
    is flagged. *)
Lemma no_sales_flagged_above_sentinel :
  let settings := withThreshold DEFAULT_SETTINGS 1000 in
  let v := calculateItemPlanning feedItem [feedLot "L1" None 50] []
             settings midJune2024 in
  Settings.lowStockRule settings = belowDaysCover
  /\ ItemPlanningView.daysCover v == 999
  /\ ItemPlanningView.lowStockFlag v = true.
Proof. vm_compute. repeat split. Qed.

Lemma no_sales_no_demand_witness :
  let v := calculateItemPlanning feedItem [feedLot "L1" None 50] []
             DEFAULT_SETTINGS midJune2024 in
  ItemPlanningView.avgMonthlyDemand v == 0
  /\ ItemPlanningView.dailyDemand v == 0
  /\ ItemPlanningView.daysCover v == 999
  /\ (Settings.lowStockRule DEFAULT_SETTINGS = belowDaysCover ->
      (ItemPlanningView.lowStockFlag v = false
       <-> Settings.lowStockDaysCoverThreshold DEFAULT_SETTINGS <= 999)).
Proof.
  apply (no_sales_no_demand feedItem [feedLot "L1" None 50] []
           DEFAULT_SETTINGS midJune2024).
  intros s [].
Defined.

(** A weighted forecast: 60 units sold in the current month only, with the
    default weights 1, 1, 1, 1, 1, 5, average to 300 / 10 = 30 a month. *)
Example weighted_average_scenario :
  let v := calculateItemPlanning feedItem [] [feedSale "2024-06" 60]
             (withForecastMethod DEFAULT_SETTINGS weightedAverage) midJune2024 in
  ItemPlanningView.avgMonthlyDemand v == 30.
Proof. vm_compute. reflexivity. Qed.

(** ** Freshness cap *)

Lemma fold_sum_nonneg {A : Type} (f : A -> Q) (xs : list A) (acc : Q) :
  0 <= acc -> (forall x, In x xs -> 0 <= f x) ->
  0 <= fold_left (fun sum x => sum + f x) xs acc.
Proof.
  revert acc.
  induction xs as [|x rest IH]; intros acc Hacc Hf; [exact Hacc|].
  simpl. apply IH.
  - pose proof (Hf x (or_introl eq_refl)). lra.
  - intros y Hy. apply Hf. now right.
Qed.

Lemma sum_by_nonneg {A : Type} (f : A -> Q) (xs : list A) :
  (forall x, In x xs -> 0 <= f x) -> 0 <= Js.sum_by f xs.
Proof. intros Hf. apply fold_sum_nonneg; [lra | exact Hf]. Qed.

Lemma Qdiv_nonneg (a b : Q) : 0 <= a -> 0 < b -> 0 <= a / b.
Proof.
  intros Ha Hb. apply Qle_shift_div_l; [exact Hb | lra].
Qed.

Section NonNegativeDemand.

Variables (item : Item.t) (sales : list SalesHistory.t) (settings : Settings.t)
          (currentDate : Date).

Hypothesis sales_nonneg :
  forall s, In s sales -> 0 <= SalesHistory.quantitySold s.
Hypothesis weights_nonneg :
  forall w, In w (Settings.weights settings) -> 0 <= w.

Lemma itemSales_incl (s : SalesHistory.t) : In s (itemSales item sales) -> In s sales.
Proof. unfold itemSales. intros H. now apply filter_In in H. Qed.

Lemma monthSale_nonneg (month : string) : 0 <= monthSale item sales month.
Proof.
  unfold monthSale.
  destruct (find _ (itemSales item sales)) as [s|] eqn:E; [|lra].
  apply find_some in E. destruct E as [Hin _].
  rewrite or_else_zero. apply sales_nonneg, itemSales_incl, Hin.
Qed.

Lemma weightAt_nonneg (idx : nat) : 0 <= weightAt settings idx.
Proof.
  unfold weightAt.
  destruct (nth_error (Settings.weights settings) idx) as [w|] eqn:E; [|lra].
  rewrite or_else_zero. apply weights_nonneg. eapply nth_error_In, E.
Qed.

Lemma weightedStep_nonneg (entries : list (nat * string)) (acc : Q * Q) :
  0 <= fst acc -> 0 <= snd acc ->
  0 <= fst (fold_left (weightedStep item sales settings) entries acc)
  /\ 0 <= snd (fold_left (weightedStep item sales settings) entries acc).
Proof.
  revert acc.
  induction entries as [|[idx month] rest IH]; intros [ws w] H1 H2; [now split|].
  simpl in *. apply IH; simpl.
  - pose proof (Qmult_le_0_compat _ _ (monthSale_nonneg month) (weightAt_nonneg idx)).
    lra.
  - pose proof (weightAt_nonneg idx). lra.
Qed.

Lemma avgMonthlyDemand_nonneg : 0 <= avgMonthlyDemand item sales settings currentDate.
Proof.
  unfold avgMonthlyDemand. destruct (Settings.forecastMethod settings).
  - set (len := inject_Z (Z.of_nat (List.length (itemSales item sales)))).
    destruct (Js.gtb len 0); [|lra].
    apply Qdiv_nonneg.
    + apply sum_by_nonneg. intros s Hs. apply sales_nonneg, itemSales_incl, Hs.
    + destruct (Math_max_cases len 1) as [[H ->]|[H ->]]; lra.
  - unfold weightedTotals.
    destruct (weightedStep_nonneg
                (combine (seq 0 (List.length (last6Months currentDate)))
                         (last6Months currentDate)) (0, 0)) as [H1 H2];
      [simpl; lra | simpl; lra |].
    destruct (fold_left _ _ _) as [ws w]. simpl in H1, H2.
    case_gtb w 0; [|lra].
    now apply Qdiv_nonneg.
Qed.

Lemma dailyDemand_nonneg : 0 <= dailyDemand item sales settings currentDate.
Proof.
  unfold dailyDemand. apply Qdiv_nonneg; [apply avgMonthlyDemand_nonneg | lra].
Qed.

End NonNegativeDemand.

(** What the calculator reads of the product before the freshness cap:
    its [id] and its [leadTimeDays]. *)
Section SameProduct.

Variables (i1 i2 : Item.t) (lots : list InventoryLot.t)
          (sales : list SalesHistory.t) (settings : Settings.t)
          (currentDate : Date).

Hypothesis same_id : Item.id i1 = Item.id i2.
Hypothesis same_leadTimeDays : Item.leadTimeDays i1 = Item.leadTimeDays i2.

Lemma availableStock_same :
  availableStock i1 lots currentDate = availableStock i2 lots currentDate.
Proof.
  unfold availableStock, nonExpiredLots, activeLots. now rewrite same_id.
Qed.

Lemma dailyDemand_same :
  dailyDemand i1 sales settings currentDate = dailyDemand i2 sales settings currentDate.
Proof.
  unfold dailyDemand, avgMonthlyDemand, weightedTotals, weightedStep, monthSale,
    itemSales.
  now rewrite same_id.
Qed.

Lemma preCapSuggested_same :
  preCapSuggested i1 lots sales settings currentDate
  = preCapSuggested i2 lots sales settings currentDate.
Proof.
  unfold preCapSuggested, reorderPoint, safetyStock, leadTime.
  now rewrite dailyDemand_same, availableStock_same, same_leadTimeDays.
Qed.

End SameProduct.

Lemma applyMoq_same (i1 i2 : Item.t) (x : Q) :
  Item.moq i1 = Item.moq i2 -> applyMoq i1 x = applyMoq i2 x.
Proof. intros H. unfold applyMoq. now rewrite H. Qed.

Lemma applyPack_same (i1 i2 : Item.t) (x : Q) :
  Item.packSize i1 = Item.packSize i2 -> applyPack i1 x = applyPack i2 x.
Proof. intros H. unfold applyPack. now rewrite H. Qed.

(** Helper, with no bound asked of [moq] and [packSize]: a daily demand that
    is not negative makes the final quantity monotone in the shelf life. *)
Lemma suggested_shelfLife_mono
      (item : Item.t) (lots : list InventoryLot.t) (sales : list SalesHistory.t)
      (settings : Settings.t) (currentDate : Date) (d1 d2 : Q) :
  0 <= dailyDemand item sales settings currentDate ->
  d1 <= d2 ->
  suggested (withShelfLife item (Some d1)) lots sales settings currentDate
  <= suggested (withShelfLife item (Some d2)) lots sales settings currentDate.
Proof.
  intros Hdd Hle. unfold suggested.
  rewrite !(applyPack_same (withShelfLife item _) item) by reflexivity.
  rewrite !(applyMoq_same (withShelfLife item _) item) by reflexivity.
  apply applyPack_mono, applyMoq_mono.
  unfold cappedSuggested, capQty, maxFreshStock, shelfLifeDays.
  rewrite !(preCapSuggested_same (withShelfLife item _) item) by reflexivity.
  rewrite !(availableStock_same (withShelfLife item _) item) by reflexivity.
  rewrite !(dailyDemand_same (withShelfLife item _) item) by reflexivity.
  cbn [Item.shelfLifeDays withShelfLife].
  apply Math_min_mono, Math_max_mono.
  set (dd := dailyDemand item sales settings currentDate) in *.
  assert (dd * d1 <= dd * d2).
  { rewrite (Qmult_comm dd d1), (Qmult_comm dd d2).
    now apply Qmult_le_compat_r. }
  lra.
Qed.

(** C8. Freshness cap monotonicity: two invocations that differ only in a
    set [shelfLifeDays], on sales quantities and weights that are not
    negative and with [moq >= 0] and [packSize >= 0]: the longer shelf life
    never gets the smaller final [suggestedOrderQty]. *)
Theorem freshness_cap_monotone
      (item : Item.t) (lots : list InventoryLot.t) (sales : list SalesHistory.t)
      (settings : Settings.t) (currentDate : Date)
      (shelfLifeDays1 shelfLifeDays2 : Q) :
  (forall s, In s sales -> 0 <= SalesHistory.quantitySold s) ->
  (forall w, In w (Settings.weights settings) -> 0 <= w) ->
  0 <= Item.moq item ->
  0 <= Item.packSize item ->
  shelfLifeDays1 <= shelfLifeDays2 ->
  ItemPlanningView.suggestedOrderQty
    (calculateItemPlanning (withShelfLife item (Some shelfLifeDays1))
                           lots sales settings currentDate)
  <= ItemPlanningView.suggestedOrderQty
       (calculateItemPlanning (withShelfLife item (Some shelfLifeDays2))
                              lots sales settings currentDate).
Proof.
  intros Hsales Hweights _ _ Hle.
  cbn [ItemPlanningView.suggestedOrderQty calculateItemPlanning].
  apply suggested_shelfLife_mono; [|exact Hle].
  now apply dailyDemand_nonneg.
Qed.

Lemma freshness_cap_monotone_witness :
  ItemPlanningView.suggestedOrderQty
    (calculateItemPlanning (withShelfLife feedItem (Some 30))
       [feedLot "L1" None 100] [feedSale "2024-05" 304] DEFAULT_SETTINGS midJune2024)
  <= ItemPlanningView.suggestedOrderQty
       (calculateItemPlanning (withShelfLife feedItem (Some 365))
          [feedLot "L1" None 100] [feedSale "2024-05" 304] DEFAULT_SETTINGS midJune2024).
Proof.
  apply (freshness_cap_monotone feedItem [feedLot "L1" None 100]
           [feedSale "2024-05" 304] DEFAULT_SETTINGS midJune2024 30 365).
  - intros s [<-|[]]. vm_compute. discriminate.
  - intros w Hw. vm_compute in Hw.
    repeat (destruct Hw as [<-|Hw]; [vm_compute; discriminate|]). destruct Hw.
  - vm_compute. discriminate.
  - vm_compute. discriminate.
  - vm_compute. discriminate.
Defined.

(** The cap at work in that pair: a shelf life of 30 days caps 180 at 140,
    which the pack size of 25 rounds to 150; 365 days leave 180, rounded
    to 200. *)
Example freshness_cap_values :
  ItemPlanningView.suggestedOrderQty
    (calculateItemPlanning (withShelfLife feedItem (Some 30))
       [feedLot "L1" None 100] [feedSale "2024-05" 304] DEFAULT_SETTINGS midJune2024)
  == 150
  /\ ItemPlanningView.suggestedOrderQty
       (calculateItemPlanning (withShelfLife feedItem (Some 365))
          [feedLot "L1" None 100] [feedSale "2024-05" 304] DEFAULT_SETTINGS midJune2024)
     == 200.
Proof. vm_compute. split; reflexivity. Qed.

(** ** Lots that expire soon *)

Lemma filter_filter_implied {A : Type} (p q : A -> bool) (xs : list A) :
  (forall x, p x = true -> q x = true) ->
  filter p xs = filter p (filter q xs).
Proof.
  intros Hpq. induction xs as [|x rest IH]; [reflexivity|]. simpl.
  destruct (p x) eqn:Ep.
  - rewrite (Hpq x Ep). simpl. rewrite Ep. now f_equal.
  - destruct (q x); simpl; [rewrite Ep|]; exact IH.
Qed.

Lemma fold_sum_acc {A : Type} (f : A -> Q) (xs : list A) (acc : Q) :
  fold_left (fun sum x => sum + f x) xs acc == acc + Js.sum_by f xs.
Proof.
  unfold Js.sum_by. revert acc.
  induction xs as [|x rest IH]; intros acc; simpl; [ring|].
  rewrite (IH (acc + f x)), (IH (0 + f x)). ring.
Qed.

Lemma sum_by_cons {A : Type} (f : A -> Q) (x : A) (xs : list A) :
  Js.sum_by f (x :: xs) == f x + Js.sum_by f xs.
Proof.
  unfold Js.sum_by at 1. simpl. rewrite fold_sum_acc. ring.
Qed.

(** A sum splits along any test of its terms. *)
Lemma sum_by_partition {A : Type} (f : A -> Q) (p : A -> bool) (xs : list A) :
  Js.sum_by f xs
  == Js.sum_by f (filter p xs) + Js.sum_by f (filter (fun x => negb (p x)) xs).
Proof.
  induction xs as [|x rest IH]; [reflexivity|].
  rewrite sum_by_cons. simpl. destruct (p x); simpl;
    rewrite sum_by_cons, IH; ring.
Qed.

Lemma msPerDay_pos : 0 < inject_Z msPerDay.
Proof. reflexivity. Qed.

Lemma msPerHour_pos : 0 < inject_Z msPerHour.
Proof. reflexivity. Qed.

Lemma Qdiv_pos_inv (a b : Q) : 0 < b -> 0 < a / b -> 0 < a.
Proof.
  intros Hb H. assert (E : a == (a / b) * b) by (field; lra).
  rewrite E. apply Qmult_lt_0_compat; assumption.
Qed.

Section ExpiringSoon.

Variables (item : Item.t) (lots : list InventoryLot.t)
          (sales : list SalesHistory.t) (settings : Settings.t)
          (currentDate : Date).

Lemma isExpiringSoon_expiry (l : InventoryLot.t) :
  isExpiringSoon settings currentDate l = true ->
  exists expDate, InventoryLot.expiryDate l = Some (IsoDate expDate)
                  /\ (getTime currentDate < expDate)%Z.
Proof.
  unfold isExpiringSoon.
  destruct (InventoryLot.expiryDate l) as [[expDate|]|]; simpl; try discriminate.
  intros H. apply andb_prop in H. destruct H as [_ H].
  apply gtb_gt in H. apply Qdiv_pos_inv in H; [|apply msPerDay_pos].
  exists expDate. split; [reflexivity|].
  change 0 with (inject_Z 0) in H. rewrite <- Zlt_Qlt in H. lia.
Qed.

Lemma isExpiringSoon_isNonExpired (l : InventoryLot.t) :
  isExpiringSoon settings currentDate l = true -> isNonExpired currentDate l = true.
Proof.
  intros H. destruct (isExpiringSoon_expiry l H) as (expDate & E & Hlt).
  unfold isNonExpired. rewrite E. simpl. now apply Z.ltb_lt.
Qed.

(** C9. Every lot of [expiringSoonLots] is [available], belongs to the
    product and expires strictly after the current date; [expiringSoonLots]
    is the part of the non-expired lots inside the warning window, so each
    of its quantities is a term of the sum [availableStock]. *)
Theorem expiringSoonLots_within_available_stock :
  (forall l,
      In l (ItemPlanningView.expiringSoonLots
              (calculateItemPlanning item lots sales settings currentDate)) ->
      InventoryLot.status l = available
      /\ InventoryLot.itemId l = Item.id item
      /\ (exists expDate, InventoryLot.expiryDate l = Some (IsoDate expDate)
                          /\ (getTime currentDate < expDate)%Z)
      /\ In l (nonExpiredLots item lots currentDate))
  /\ ItemPlanningView.expiringSoonLots
       (calculateItemPlanning item lots sales settings currentDate)
     = filter (isExpiringSoon settings currentDate)
              (nonExpiredLots item lots currentDate)
  /\ ItemPlanningView.availableStock
       (calculateItemPlanning item lots sales settings currentDate)
     == Js.sum_by InventoryLot.quantityRemaining
          (ItemPlanningView.expiringSoonLots
             (calculateItemPlanning item lots sales settings currentDate))
        + Js.sum_by InventoryLot.quantityRemaining
            (filter (fun l => negb (isExpiringSoon settings currentDate l))
                    (nonExpiredLots item lots currentDate)).
Proof.
  cbn [ItemPlanningView.expiringSoonLots ItemPlanningView.availableStock
       calculateItemPlanning].
  assert (Hsub : expiringSoonLots item lots settings currentDate
                 = filter (isExpiringSoon settings currentDate)
                          (nonExpiredLots item lots currentDate)).
  { unfold expiringSoonLots, nonExpiredLots.
    apply filter_filter_implied, isExpiringSoon_isNonExpired. }
  split; [|split].
  - intros l Hl.
    assert (Hne : In l (nonExpiredLots item lots currentDate)).
    { rewrite Hsub in Hl. now apply filter_In in Hl. }
    unfold expiringSoonLots in Hl. apply filter_In in Hl. destruct Hl as [Hact Hsoon].
    unfold activeLots in Hact. apply filter_In in Hact. destruct Hact as [_ Hact].
    apply andb_prop in Hact. destruct Hact as [Hid Hst].
    apply String.eqb_eq in Hid.
    repeat split; try assumption.
    + destruct (InventoryLot.status l); [reflexivity | discriminate | discriminate].
    + now apply isExpiringSoon_expiry.
  - exact Hsub.
  - rewrite Hsub. unfold availableStock. apply sum_by_partition.
Qed.

End ExpiringSoon.

(** The scenario of the specification: a lot expiring 10 days from now is
    in [expiringSoonLots] under a 60-day warning window; a lot whose expiry
    date is in the past is in neither [expiringSoonLots] nor
    [availableStock]. *)
Example expiry_scenario :
  let soon := feedLot "L1" (Some (IsoDate (1718409600000 + 10 * msPerDay))) 40 in
  let past := feedLot "L2" (Some (IsoDate (1718409600000 - 1 * msPerDay))) 7 in
  let v := calculateItemPlanning feedItem [soon; past] [] DEFAULT_SETTINGS midJune2024 in
  ItemPlanningView.expiringSoonLots v = [soon]
  /\ ItemPlanningView.availableStock v == 40.
Proof. vm_compute. split; reflexivity. Qed.

(** ** The alert detector: what a call emits *)

Section DetectAlertsFacts.

Variables (existingAlerts : list InventoryAlert.t) (settings : Settings.t)
          (now : Date).

Lemma detectAlerts_from (views : list ItemPlanningView.t) (acc : list InventoryAlert.t) :
  fold_left (detectStep existingAlerts settings now) views acc
  = acc ++ flat_map (fun v => checkOf existingAlerts settings now lowStock v
                              ++ checkOf existingAlerts settings now expiry v)
                    views.
Proof.
  revert acc. induction views as [|v rest IH]; intros acc; simpl.
  - now rewrite app_nil_r.
  - rewrite IH. unfold detectStep. now rewrite <- !app_assoc.
Qed.

Lemma detectAlerts_flat_map (views : list ItemPlanningView.t) :
  detectAlerts existingAlerts settings now views
  = flat_map (fun v => checkOf existingAlerts settings now lowStock v
                       ++ checkOf existingAlerts settings now expiry v)
             views.
Proof. unfold detectAlerts. now rewrite detectAlerts_from. Qed.

Lemma In_detectAlerts (views : list ItemPlanningView.t) (n : InventoryAlert.t) :
  In n (detectAlerts existingAlerts settings now views)
  <-> exists v type, In v views /\ In n (checkOf existingAlerts settings now type v).
Proof.
  rewrite detectAlerts_flat_map, in_flat_map. split.
  - intros (v & Hv & Hn). apply in_app_or in Hn.
    destruct Hn as [Hn|Hn]; [exists v, lowStock | exists v, expiry]; now split.
  - intros (v & type & Hv & Hn). exists v. split; [exact Hv|].
    apply in_or_app. destruct type; [now left | now right].
Qed.

Lemma alertOf_fields (type : AlertType) (v : ItemPlanningView.t) :
  InventoryAlert.itemId (alertOf now type v) = Item.id (ItemPlanningView.item v)
  /\ InventoryAlert.type (alertOf now type v) = type
  /\ InventoryAlert.status (alertOf now type v) = pending.
Proof. destruct type; repeat split. Qed.

(** One check, in one shape for both alert types. *)
Lemma checkOf_cases (type : AlertType) (v : ItemPlanningView.t) :
  (checkOf existingAlerts settings now type v = [alertOf now type v]
   /\ qualifies type v
   /\ find (isRecentAlert settings now (Item.id (ItemPlanningView.item v)) type)
           existingAlerts = None)
  \/ (checkOf existingAlerts settings now type v = []
      /\ (qualifies type v ->
          exists a, find (isRecentAlert settings now
                            (Item.id (ItemPlanningView.item v)) type)
                         existingAlerts = Some a)).
Proof.
  destruct type; simpl.
  - unfold lowStockCheck. destruct (ItemPlanningView.lowStockFlag v).
    + destruct (find _ existingAlerts) as [a|] eqn:E.
      * right. split; [reflexivity|]. intros _. now exists a.
      * left. now repeat split.
    + right. split; [reflexivity | discriminate].
  - unfold expiryCheck. destruct (ItemPlanningView.expiringSoonLots v) as [|l ls].
    + right. split; [reflexivity|]. intros H. now contradiction H.
    + destruct (find _ existingAlerts) as [a|] eqn:E.
      * right. split; [reflexivity|]. intros _. now exists a.
      * left. repeat split; discriminate.
Qed.

Lemma In_checkOf (type : AlertType) (v : ItemPlanningView.t) (n : InventoryAlert.t) :
  In n (checkOf existingAlerts settings now type v) ->
  n = alertOf now type v
  /\ find (isRecentAlert settings now (Item.id (ItemPlanningView.item v)) type)
          existingAlerts = None.
Proof.
  destruct (checkOf_cases type v) as [(E & _ & Hfind)|(E & _)]; rewrite E.
  - intros [<-|[]]. now split.
  - intros [].
Qed.

(** Every emitted alert is pending and carries the id of its view's product. *)
Lemma detectAlerts_emits (views : list ItemPlanningView.t) (n : InventoryAlert.t) :
  In n (detectAlerts existingAlerts settings now views) ->
  exists v, In v views
            /\ n = alertOf now (InventoryAlert.type n) v
            /\ find (isRecentAlert settings now (Item.id (ItemPlanningView.item v))
                                   (InventoryAlert.type n))
                    existingAlerts = None.
Proof.
  intros H. apply In_detectAlerts in H. destruct H as (v & type & Hv & Hn).
  apply In_checkOf in Hn. destruct Hn as [-> Hfind].
  destruct (alertOf_fields type v) as (_ & -> & _). now exists v.
Qed.

End DetectAlertsFacts.

Lemma find_hit {A : Type} (p : A -> bool) (xs : list A) (x : A) :
  In x xs -> p x = true -> find p xs <> None.
Proof.
  intros Hin Hp Hnone. pose proof (find_none p xs Hnone x Hin). congruence.
Qed.

Lemma AlertType_eqb_eq (a b : AlertType) : AlertType_eqb a b = true <-> a = b.
Proof. destruct a, b; simpl; split; congruence. Qed.

Lemma AlertStatus_eqb_eq (a b : AlertStatus) : AlertStatus_eqb a b = true <-> a = b.
Proof. destruct a, b; simpl; split; congruence. Qed.

(** The test of [existingAlerts.find], read off the code. *)
Lemma isRecentAlert_iff (settings : Settings.t) (now : Date) (itemId : string)
      (type : AlertType) (a : InventoryAlert.t) :
  isRecentAlert settings now itemId type a = true
  <-> InventoryAlert.itemId a = itemId
      /\ InventoryAlert.type a = type
      /\ (InventoryAlert.status a = pending \/ inCooldown settings now a = true).
Proof.
  unfold isRecentAlert.
  rewrite !andb_true_iff, orb_true_iff, String.eqb_eq, AlertType_eqb_eq,
    AlertStatus_eqb_eq.
  tauto.
Qed.

(** ** Cooldown *)

Lemma inCooldown_sentWithin (settings : Settings.t) (now : Date)
      (a : InventoryAlert.t) (sentAt : Z) :
  InventoryAlert.lastSentAt a = Some (IsoDate sentAt) ->
  (inCooldown settings now a = true
   <-> sentWithin (Settings.notificationCooldownHours settings) now sentAt).
Proof.
  intros E. unfold inCooldown, sentWithin. rewrite E. simpl. rewrite ltb_lt.
  pose proof msPerHour_pos as Hpos.
  set (elapsed := inject_Z (getTime now - sentAt)).
  set (ms := inject_Z msPerHour) in *.
  split; intros H.
  - assert (Ee : elapsed == (elapsed / ms) * ms) by (field; lra).
    rewrite Ee. apply Qmult_lt_compat_r; assumption.
  - apply Qlt_shift_div_r; assumption.
Qed.

(** C3. Cooldown is respected. For a view that asks for an alert of some
    type (low stock: [lowStockFlag]; expiry: [expiringSoonLots] not empty):
    - if an existing alert of that product and type has status [sent] and a
      [lastSentAt] strictly less than [notificationCooldownHours] hours
      before [now], no alert of that type is emitted for the product;
    - if every existing alert of that product and type has status [sent]
      and a [lastSentAt] at least [notificationCooldownHours] hours before
      [now], an alert of that type is emitted for the product. *)
Theorem cooldown_respected
      (views : list ItemPlanningView.t) (existingAlerts : list InventoryAlert.t)
      (settings : Settings.t) (now : Date)
      (view : ItemPlanningView.t) (type : AlertType) :
  In view views ->
  qualifies type view ->
  let productId := Item.id (ItemPlanningView.item view) in
  let cooldown := Settings.notificationCooldownHours settings in
  ((exists a sentAt,
       In a existingAlerts
       /\ InventoryAlert.itemId a = productId
       /\ InventoryAlert.type a = type
       /\ InventoryAlert.status a = sent
       /\ InventoryAlert.lastSentAt a = Some (IsoDate sentAt)
       /\ sentWithin cooldown now sentAt) ->
   forall n, In n (detectAlerts existingAlerts settings now views) ->
             ~ (InventoryAlert.itemId n = productId /\ InventoryAlert.type n = type))
  /\
  ((forall a, In a existingAlerts ->
              InventoryAlert.itemId a = productId ->
              InventoryAlert.type a = type ->
              InventoryAlert.status a = sent
              /\ exists sentAt,
                   InventoryAlert.lastSentAt a = Some (IsoDate sentAt)
                   /\ ~ sentWithin cooldown now sentAt) ->
   exists n, In n (detectAlerts existingAlerts settings now views)
             /\ InventoryAlert.itemId n = productId
             /\ InventoryAlert.type n = type
             /\ InventoryAlert.status n = pending).
Proof.
  intros Hview Hq productId cooldown. split.
  - intros (a & sentAt & Hin & Hid & Hty & _ & Hsent & Hwithin) n Hn [Hnid Hnty].
    apply detectAlerts_emits in Hn. destruct Hn as (v & _ & En & Hfind).
    rewrite Hnty in En, Hfind.
    destruct (alertOf_fields now type v) as (Evid & _ & _).
    rewrite <- En, Hnid in Evid. rewrite <- Evid in Hfind.
    apply (find_hit _ _ a Hin) in Hfind; [exact Hfind|].
    apply isRecentAlert_iff. repeat split; try assumption.
    right. now apply (inCooldown_sentWithin settings now a sentAt Hsent).
  - intros Hall. exists (alertOf now type view).
    destruct (alertOf_fields now type view) as (E1 & E2 & E3).
    repeat split; try assumption.
    apply In_detectAlerts. exists view, type. split; [exact Hview|].
    destruct (checkOf_cases existingAlerts settings now type view)
      as [(E & _)|(_ & Hsome)]; [rewrite E; now left|].
    exfalso. destruct (Hsome Hq) as [a Hfind].
    apply find_some in Hfind. destruct Hfind as [Hin Hrecent].
    apply isRecentAlert_iff in Hrecent. destruct Hrecent as (Hid & Hty & Hsupp).
    destruct (Hall a Hin Hid Hty) as (Hst & sentAt & Hsent & Hout).
    destruct Hsupp as [Hp|Hc]; [congruence|].
    apply Hout. now apply (inCooldown_sentWithin settings now a sentAt Hsent).
Qed.

Example lowView_flagged :
  ItemPlanningView.lowStockFlag lowView = true
  /\ ItemPlanningView.daysCover lowView == 10
  /\ ItemPlanningView.expiringSoonLots lowView = [].
Proof. vm_compute. repeat split. Qed.

Lemma cooldown_respected_witness :
  exists n,
    In n (detectAlerts [feedAlert lowStock sent (hoursFromMidJune (-30))
                                  (Some (hoursFromMidJune (-25)))]
                       DEFAULT_SETTINGS midJune2024 [lowView])
    /\ InventoryAlert.itemId n = "A"%string
    /\ InventoryAlert.type n = lowStock
    /\ InventoryAlert.status n = pending.
Proof.
  refine (proj2 (cooldown_respected [lowView]
                   [feedAlert lowStock sent (hoursFromMidJune (-30))
                              (Some (hoursFromMidJune (-25)))]
                   DEFAULT_SETTINGS midJune2024 lowView lowStock _ _) _).
  - left. reflexivity.
  - reflexivity.
  - intros a [<-|[]] _ _. split; [reflexivity|].
    exists (hoursFromMidJune (-25)). split; [reflexivity|].
    vm_compute. discriminate.
Defined.

(** ** Idempotence of detection *)

Lemma flat_map_nil {A B : Type} (f : A -> list B) (xs : list A) :
  (forall x, In x xs -> f x = []) -> flat_map f xs = [].
Proof.
  intros H. induction xs as [|x rest IH]; [reflexivity|]. simpl.
  rewrite (H x (or_introl eq_refl)). apply IH. intros y Hy. apply H. now right.
Qed.

(** A check that asked for an alert in the first run is suppressed in the
    second: either by the alert the first run emitted, now pending in the
    list, or by the alert that suppressed it the first time. *)
Lemma check_suppressed_again
      (views : list ItemPlanningView.t)
      (existingAlerts existingAlerts' : list InventoryAlert.t)
      (settings : Settings.t) (now now' : Date)
      (v : ItemPlanningView.t) (type : AlertType) :
  (forall a, In a existingAlerts -> In a existingAlerts') ->
  (forall a, In a (detectAlerts existingAlerts settings now views) ->
             In a existingAlerts') ->
  (forall a sentAt,
      In a existingAlerts ->
      InventoryAlert.lastSentAt a = Some (IsoDate sentAt) ->
      sentWithin (Settings.notificationCooldownHours settings) now sentAt ->
      sentWithin (Settings.notificationCooldownHours settings) now' sentAt) ->
  In v views ->
  checkOf existingAlerts' settings now' type v = [].
Proof.
  intros Hold Hnew Hstill Hv.
  destruct (checkOf_cases existingAlerts' settings now' type v)
    as [(_ & Hq & Hfind)|(E & _)]; [exfalso | exact E].
  destruct (checkOf_cases existingAlerts settings now type v)
    as [(E & _)|(_ & Hsome)].
  - (* the first run emitted an alert: it is pending in the second list *)
    assert (Hin : In (alertOf now type v) existingAlerts').
    { apply Hnew, In_detectAlerts. exists v, type. split; [exact Hv|].
      rewrite E. now left. }
    apply (find_hit _ _ _ Hin) in Hfind; [exact Hfind|].
    destruct (alertOf_fields now type v) as (E1 & E2 & E3).
    apply isRecentAlert_iff. repeat split; try assumption. now left.
  - (* the first run was suppressed by an alert that still suppresses *)
    destruct (Hsome Hq) as [a Ha]. apply find_some in Ha.
    destruct Ha as [Hin Hrecent].
    apply (find_hit _ _ a (Hold a Hin)) in Hfind; [exact Hfind|].
    apply isRecentAlert_iff in Hrecent. destruct Hrecent as (Hid & Hty & Hsupp).
    apply isRecentAlert_iff. repeat split; try assumption.
    destruct Hsupp as [Hp|Hc]; [now left | right].
    unfold inCooldown in Hc.
    destruct (InventoryAlert.lastSentAt a) as [[sentAt|]|] eqn:Es;
      simpl in Hc; try discriminate.
    apply (inCooldown_sentWithin settings now' a sentAt Es).
    apply (Hstill a sentAt Hin Es).
    apply (inCooldown_sentWithin settings now a sentAt Es).
    unfold inCooldown. rewrite Es. exact Hc.
Qed.


(** At one and the same [now], with exactly the merged list. *)
Corollary detectAlerts_twice_same_now
      (views : list ItemPlanningView.t) (existingAlerts : list InventoryAlert.t)
      (settings : Settings.t) (now : Date) :
  detectAlerts (existingAlerts ++ detectAlerts existingAlerts settings now views)
               settings now views = [].
Proof.
  rewrite detectAlerts_flat_map. apply flat_map_nil. intros v Hv.
  rewrite !(check_suppressed_again views existingAlerts
              (existingAlerts ++ detectAlerts existingAlerts settings now views)
              settings now now v); try assumption; try reflexivity.
  all: try (intros a Ha; apply in_or_app; tauto).
  all: intros a sentAt _ _ H; exact H.
Qed.



(** ** No fallback on [createdAt] *)

(** C4, the code at the failing input. A dismissed low-stock alert with no
    [lastSentAt], created one hour before [now] (cooldown 24 hours), does
    not suppress: [detectAlerts] emits a new low-stock alert for the same
    product. The caller's filter over the same lists, which does fall back
    on [createdAt], drops that alert again. *)
Theorem recent_createdAt_does_not_suppress :
  let existingAlerts := [feedAlert lowStock dismissed (hoursFromMidJune (-1)) None] in
  let newAlerts := detectAlerts existingAlerts DEFAULT_SETTINGS midJune2024 [lowView] in
  sentWithin (Settings.notificationCooldownHours DEFAULT_SETTINGS) midJune2024
             (hoursFromMidJune (-1))
  /\ newAlerts = [lowStockAlert midJune2024 lowView]
  /\ uniqueAlerts existingAlerts DEFAULT_SETTINGS midJune2024 newAlerts = [].
Proof.
  split; [vm_compute; reflexivity | split; vm_compute; reflexivity].
Qed.

(** The suppression test never reads [createdAt]: an alert that is neither
    pending nor carries a [lastSentAt] does not suppress, whenever it was
    created. *)
Lemma isRecentAlert_without_lastSentAt (settings : Settings.t) (now : Date)
      (itemId : string) (type : AlertType) (a : InventoryAlert.t) :
  InventoryAlert.lastSentAt a = None ->
  InventoryAlert.status a <> pending ->
  isRecentAlert settings now itemId type a = false.
Proof.
  intros Hnone Hst. unfold isRecentAlert, inCooldown. rewrite Hnone.
  destruct (InventoryAlert.status a); [contradiction | |];
    simpl; now rewrite andb_false_r.
Qed.

(** * Further properties of the code *)

(** ** Stock, cover and the suggested quantity *)

Lemma Math_max_pos_inv (x : Q) : 0 < Js.Math_max 0 x -> 0 < x.
Proof. destruct (Math_max_cases 0 x) as [[H ->]|[H ->]]; lra. Qed.

Lemma Math_min_mono_both (a a' b b' : Q) :
  a <= a' -> b <= b' -> Js.Math_min a b <= Js.Math_min a' b'.
Proof.
  intros Ha Hb.
  destruct (Math_min_cases a b) as [[? ->]|[? ->]];
  destruct (Math_min_cases a' b') as [[? ->]|[? ->]]; lra.
Qed.






Section StockAndOrder.

Variables (item : Item.t) (lots : list InventoryLot.t)
          (sales : list SalesHistory.t) (settings : Settings.t)
          (currentDate : Date).

(** A lot in front of the list adds its quantity to [availableStock] when
    it is an available, non-expired lot of the product, and nothing
    otherwise. *)
Lemma availableStock_cons (l : InventoryLot.t) :
  availableStock item (l :: lots) currentDate
  == (if (InventoryLot.itemId l =? Item.id item)%string
         && LotStatus_eqb (InventoryLot.status l) available
         && isNonExpired currentDate l
      then InventoryLot.quantityRemaining l else 0)
     + availableStock item lots currentDate.
Proof.
  unfold availableStock, nonExpiredLots, activeLots. simpl.
  destruct ((InventoryLot.itemId l =? Item.id item)%string
            && LotStatus_eqb (InventoryLot.status l) available); simpl; [|ring].
  destruct (isNonExpired currentDate l); simpl; [|ring].
  apply sum_by_cons.
Qed.

(** X1. More stock never asks for a larger order: putting one more lot with
    a quantity that is not negative in front of the lots does not raise
    the final [suggestedOrderQty]. *)
Theorem more_stock_never_raises_order (l : InventoryLot.t) :
  0 <= InventoryLot.quantityRemaining l ->
  ItemPlanningView.suggestedOrderQty
    (calculateItemPlanning item (l :: lots) sales settings currentDate)
  <= ItemPlanningView.suggestedOrderQty
       (calculateItemPlanning item lots sales settings currentDate).
Proof.
  intros Hq. cbn [ItemPlanningView.suggestedOrderQty calculateItemPlanning].
  assert (Hav : availableStock item lots currentDate
                <= availableStock item (l :: lots) currentDate).
  { rewrite availableStock_cons. destruct (_ && _); lra. }
  unfold suggested. apply applyPack_mono, applyMoq_mono.
  unfold cappedSuggested, preCapSuggested, capQty.
  apply Math_min_mono_both; apply Math_max_mono; lra.
Qed.


(** X3. An order is suggested only below both levels: a positive final
    [suggestedOrderQty] means that [availableStock] is below the order-up-to
    level [reorderPoint + dailyDemand * reviewPeriodDays] and below the
    maximum fresh stock [dailyDemand * shelfLifeDays * 0.8]. *)
Theorem order_only_below_levels :
  0 < ItemPlanningView.suggestedOrderQty
        (calculateItemPlanning item lots sales settings currentDate) ->
  availableStock item lots currentDate
  < reorderPoint item sales settings currentDate
    + dailyDemand item sales settings currentDate * Settings.reviewPeriodDays settings
  /\ availableStock item lots currentDate
     < maxFreshStock item sales settings currentDate.
Proof.
  cbn [ItemPlanningView.suggestedOrderQty calculateItemPlanning].
  unfold suggested. intros H.
  apply applyPack_pos, applyMoq_pos in H.
  unfold cappedSuggested in H.
  assert (Hpre : 0 < preCapSuggested item lots sales settings currentDate)
    by (destruct (Math_min_cases (preCapSuggested item lots sales settings currentDate)
                                 (capQty item lots sales settings currentDate))
          as [[? E]|[? E]]; rewrite E in H; lra).
  assert (Hcap : 0 < capQty item lots sales settings currentDate)
    by (destruct (Math_min_cases (preCapSuggested item lots sales settings currentDate)
                                 (capQty item lots sales settings currentDate))
          as [[? E]|[? E]]; rewrite E in H; lra).
  apply Math_max_pos_inv in Hpre. apply Math_max_pos_inv in Hcap. split; lra.
Qed.



End StockAndOrder.

Section LowStockRules.

Variables (item : Item.t) (lots : list InventoryLot.t)
          (sales : list SalesHistory.t) (settings : Settings.t)
          (currentDate : Date).


(** X7. Under the [belowReorderPoint] rule a flagged product gets an order
    unless the freshness cap leaves no room: with a daily demand and a
    review period that are not negative, [lowStockFlag] implies a positive
    [suggestedOrderQty] or a [freshnessCapQty] of 0. *)
Theorem flagged_below_reorder_point_gets_order :
  Settings.lowStockRule settings = belowReorderPoint ->
  0 <= dailyDemand item sales settings currentDate ->
  0 <= Settings.reviewPeriodDays settings ->
  ItemPlanningView.lowStockFlag
    (calculateItemPlanning item lots sales settings currentDate) = true ->
  0 < ItemPlanningView.suggestedOrderQty
        (calculateItemPlanning item lots sales settings currentDate)
  \/ ItemPlanningView.freshnessCapQty
       (calculateItemPlanning item lots sales settings currentDate) == 0.
Proof.
  intros Hrule Hdd Hrev.
  cbn [ItemPlanningView.lowStockFlag ItemPlanningView.suggestedOrderQty
       ItemPlanningView.freshnessCapQty calculateItemPlanning].
  unfold lowStockFlag. rewrite Hrule, ltb_lt. intros Hlow.
  pose proof (capQty_nonneg item lots sales settings currentDate) as Hcap0.
  destruct (Qlt_le_dec 0 (capQty item lots sales settings currentDate)) as [Hcap|Hcap];
    [left | right; lra].
  pose proof (Qmult_le_0_compat _ _ Hdd Hrev) as Hreview.
  assert (Hpre : 0 < preCapSuggested item lots sales settings currentDate).
  { unfold preCapSuggested.
    destruct (Math_max_cases 0
                (reorderPoint item sales settings currentDate
                 + dailyDemand item sales settings currentDate
                   * Settings.reviewPeriodDays settings
                 - availableStock item lots currentDate)) as [[? ->]|[? ->]]; lra. }
  unfold suggested.
  eapply Qlt_le_trans; [|apply applyPack_ge].
  eapply Qlt_le_trans; [|apply applyMoq_ge].
  unfold cappedSuggested.
  destruct (Math_min_cases (preCapSuggested item lots sales settings currentDate)
                           (capQty item lots sales settings currentDate))
    as [[? ->]|[? ->]]; assumption.
Qed.

End LowStockRules.

Lemma more_stock_never_raises_order_witness :
  ItemPlanningView.suggestedOrderQty
    (calculateItemPlanning feedItem [feedLot "L2" None 60; feedLot "L1" None 100]
       [feedSale "2024-05" 304] DEFAULT_SETTINGS midJune2024)
  <= ItemPlanningView.suggestedOrderQty
       (calculateItemPlanning feedItem [feedLot "L1" None 100]
          [feedSale "2024-05" 304] DEFAULT_SETTINGS midJune2024).
Proof.
  apply (more_stock_never_raises_order feedItem [feedLot "L1" None 100]
           [feedSale "2024-05" 304] DEFAULT_SETTINGS midJune2024
           (feedLot "L2" None 60)).
  vm_compute. discriminate.
Defined.

Lemma order_only_below_levels_witness :
  availableStock feedItem [feedLot "L1" None 100] midJune2024
  < reorderPoint feedItem [feedSale "2024-05" 304] DEFAULT_SETTINGS midJune2024
    + dailyDemand feedItem [feedSale "2024-05" 304] DEFAULT_SETTINGS midJune2024
      * Settings.reviewPeriodDays DEFAULT_SETTINGS
  /\ availableStock feedItem [feedLot "L1" None 100] midJune2024
     < maxFreshStock feedItem [feedSale "2024-05" 304] DEFAULT_SETTINGS midJune2024.
Proof.
  apply (order_only_below_levels feedItem [feedLot "L1" None 100]
           [feedSale "2024-05" 304] DEFAULT_SETTINGS midJune2024).
  vm_compute. reflexivity.
Defined.



(** ** What a view depends on *)

Lemma filter_idempotent {A : Type} (p : A -> bool) (xs : list A) :
  filter p (filter p xs) = filter p xs.
Proof.
  induction xs as [|x rest IH]; [reflexivity|]. simpl.
  destruct (p x) eqn:E; simpl; [rewrite E; now f_equal | exact IH].
Qed.

(** The view reads [lots] through [activeLots] and [sales] through
    [itemSales] only. *)
Lemma calculateItemPlanning_same_inputs
      (item : Item.t) (lots lots' : list InventoryLot.t)
      (sales sales' : list SalesHistory.t) (settings : Settings.t)
      (currentDate : Date) :
  activeLots item lots = activeLots item lots' ->
  itemSales item sales = itemSales item sales' ->
  calculateItemPlanning item lots sales settings currentDate
  = calculateItemPlanning item lots' sales' settings currentDate.
Proof.
  intros Hlots Hsales.
  unfold calculateItemPlanning, projectedDaysCoverAfterOrder, lowStockFlag,
    daysCover, freshnessCapApplied, suggested, cappedSuggested, capQty,
    maxFreshStock, preCapSuggested, reorderPoint, safetyStock, dailyDemand,
    avgMonthlyDemand, weightedTotals, weightedStep, monthSale, availableStock,
    nonExpiredLots, expiringSoonLots.
  now rewrite Hlots, Hsales.
Qed.

(** X8. Products are planned in isolation: the view of a product is the
    one computed from its own available lots and its own sales records
    alone; lots and sales of other products, and lots that are expired or
    damaged by status, change nothing in it. *)
Theorem planning_reads_own_records_only
      (item : Item.t) (lots : list InventoryLot.t) (sales : list SalesHistory.t)
      (settings : Settings.t) (currentDate : Date) :
  calculateItemPlanning item lots sales settings currentDate
  = calculateItemPlanning item (activeLots item lots) (itemSales item sales)
      settings currentDate.
Proof.
  apply calculateItemPlanning_same_inputs; unfold activeLots, itemSales;
    now rewrite filter_idempotent.
Qed.

(** ** The forecast stays within the recorded quantities *)


Section ForecastRange.

Variables (item : Item.t) (sales : list SalesHistory.t) (settings : Settings.t)
          (currentDate : Date) (hi : Q).

Hypothesis sales_in_range :
  forall s, In s sales -> 0 <= SalesHistory.quantitySold s <= hi.
Hypothesis weights_nonneg :
  forall w, In w (Settings.weights settings) -> 0 <= w.
Hypothesis hi_nonneg : 0 <= hi.




End ForecastRange.


(** ** The order of the lots does not matter *)








Section LotsOrder.

Variables (item : Item.t) (lots lots' : list InventoryLot.t)
          (sales : list SalesHistory.t) (settings : Settings.t)
          (currentDate : Date).

Hypothesis same_lots : Permutation lots lots'.





End LotsOrder.


(** ** What the detector emits *)

Lemma detectAlerts_cons
      (existingAlerts : list InventoryAlert.t) (settings : Settings.t) (now : Date)
      (v : ItemPlanningView.t) (views : list ItemPlanningView.t) :
  detectAlerts existingAlerts settings now (v :: views)
  = (checkOf existingAlerts settings now lowStock v
     ++ checkOf existingAlerts settings now expiry v)
    ++ detectAlerts existingAlerts settings now views.
Proof. now rewrite !detectAlerts_flat_map. Qed.

(** X11. Every alert that [detectAlerts] returns is a fresh pending alert of
    a view that asks for it: its status is [pending], it has no
    [lastSentAt], it is created at [now], and it carries the product id of
    a view among the input that qualifies for its type and for which no
    existing alert suppresses that type. *)
Theorem emitted_alerts_are_fresh
      (views : list ItemPlanningView.t) (existingAlerts : list InventoryAlert.t)
      (settings : Settings.t) (now : Date) (n : InventoryAlert.t) :
  In n (detectAlerts existingAlerts settings now views) ->
  InventoryAlert.status n = pending
  /\ InventoryAlert.lastSentAt n = None
  /\ InventoryAlert.createdAt n = IsoDate (getTime now)
  /\ exists v,
       In v views
       /\ qualifies (InventoryAlert.type n) v
       /\ InventoryAlert.itemId n = Item.id (ItemPlanningView.item v)
       /\ forall a, In a existingAlerts ->
                    isRecentAlert settings now (InventoryAlert.itemId n)
                                  (InventoryAlert.type n) a = false.
Proof.
  intros H. apply In_detectAlerts in H. destruct H as (v & type & Hv & Hn).
  destruct (checkOf_cases existingAlerts settings now type v)
    as [(E & Hq & Hfind)|(E & _)]; rewrite E in Hn; [|destruct Hn].
  destruct Hn as [<-|[]].
  destruct (alertOf_fields now type v) as (E1 & E2 & E3).
  repeat split; try assumption; try (destruct type; reflexivity).
  exists v. rewrite E1, E2. repeat split; try assumption.
  intros a Ha. exact (find_none _ _ Hfind a Ha).
Qed.

Lemma emitted_alerts_are_fresh_witness :
  InventoryAlert.status (lowStockAlert midJune2024 lowView) = pending.
Proof.
  apply (emitted_alerts_are_fresh [lowView] [] DEFAULT_SETTINGS midJune2024
           (lowStockAlert midJune2024 lowView)).
  left. reflexivity.
Defined.

(** The product and type of an alert: what suppression looks at. *)
Lemma In_checkOf_key
      (existingAlerts : list InventoryAlert.t) (settings : Settings.t) (now : Date)
      (type : AlertType) (v : ItemPlanningView.t) (n : InventoryAlert.t) :
  In n (checkOf existingAlerts settings now type v) ->
  InventoryAlert.itemId n = Item.id (ItemPlanningView.item v)
  /\ InventoryAlert.type n = type.
Proof.
  intros H. apply In_checkOf in H. destruct H as [-> _].
  destruct (alertOf_fields now type v) as (E1 & E2 & _). now split.
Qed.

Lemma checkOf_at_most_one
      (existingAlerts : list InventoryAlert.t) (settings : Settings.t) (now : Date)
      (type : AlertType) (v : ItemPlanningView.t) :
  checkOf existingAlerts settings now type v = []
  \/ checkOf existingAlerts settings now type v = [alertOf now type v].
Proof.
  destruct (checkOf_cases existingAlerts settings now type v)
    as [(E & _)|(E & _)]; auto.
Qed.

(** X12. At most one alert per product and type: when the views carry
    pairwise different product ids, no two alerts of one call share both
    [itemId] and [type]. *)
Theorem one_alert_per_product_and_type
      (views : list ItemPlanningView.t) (existingAlerts : list InventoryAlert.t)
      (settings : Settings.t) (now : Date) :
  NoDup (map (fun v => Item.id (ItemPlanningView.item v)) views) ->
  NoDup (map (fun n => (InventoryAlert.itemId n, InventoryAlert.type n))
             (detectAlerts existingAlerts settings now views)).
Proof.
  induction views as [|v rest IH]; intros Hnodup; [constructor|].
  rewrite detectAlerts_cons.
  inversion Hnodup as [|? ? Hnotin Hrest]; subst.
  specialize (IH Hrest).
  assert (Hfar : forall n, In n (detectAlerts existingAlerts settings now rest) ->
                           InventoryAlert.itemId n <> Item.id (ItemPlanningView.item v)).
  { intros n Hn E. apply Hnotin. apply In_detectAlerts in Hn.
    destruct Hn as (v' & type & Hv' & Hn). apply In_checkOf_key in Hn.
    destruct Hn as [Hid _]. rewrite <- E, Hid.
    apply (in_map (fun v => Item.id (ItemPlanningView.item v))), Hv'. }
  assert (Hrestkeys :
            forall type,
              ~ In (Item.id (ItemPlanningView.item v), type)
                   (map (fun n => (InventoryAlert.itemId n, InventoryAlert.type n))
                        (detectAlerts existingAlerts settings now rest))).
  { intros type Hin. apply in_map_iff in Hin. destruct Hin as (n & E & Hn).
    injection E as E _. exact (Hfar n Hn E). }
  destruct (alertOf_fields now lowStock v) as (L1 & L2 & _).
  destruct (alertOf_fields now expiry v) as (X1 & X2 & _).
  destruct (checkOf_at_most_one existingAlerts settings now lowStock v) as [-> | ->];
  destruct (checkOf_at_most_one existingAlerts settings now expiry v) as [-> | ->];
    cbn [app map]; rewrite ?L1, ?L2, ?X1, ?X2;
    repeat (constructor; [cbn [In]; intros [E|Hin];
                          [discriminate E | exact (Hrestkeys _ Hin)]
                         | ]);
    try (constructor; [apply Hrestkeys|]); exact IH.
Qed.

Lemma one_alert_per_product_and_type_witness :
  NoDup (map (fun n => (InventoryAlert.itemId n, InventoryAlert.type n))
             (detectAlerts [] DEFAULT_SETTINGS midJune2024 [lowView])).
Proof.
  apply (one_alert_per_product_and_type [lowView] [] DEFAULT_SETTINGS midJune2024).
  repeat constructor. intros [].
Defined.

(** ** The detector and the dashboard's counters *)

Lemma expiringSoonCount_from (views : list ItemPlanningView.t) (acc : nat) :
  fold_left (fun sum v => (sum + List.length (ItemPlanningView.expiringSoonLots v))%nat)
            views acc
  = (acc + expiringSoonCount views)%nat.
Proof.
  unfold expiringSoonCount. revert acc.
  induction views as [|v rest IH]; intros acc; simpl; [lia|].
  rewrite (IH (acc + _)%nat), (IH (List.length _)). lia.
Qed.

Lemma expiringSoonCount_cons (v : ItemPlanningView.t) (views : list ItemPlanningView.t) :
  expiringSoonCount (v :: views)
  = (List.length (ItemPlanningView.expiringSoonLots v) + expiringSoonCount views)%nat.
Proof.
  unfold expiringSoonCount at 1. simpl. now rewrite expiringSoonCount_from.
Qed.

(** X13. A calm dashboard raises no alert: when the dashboard counts no
    low-stock product and no lot expiring soon, [detectAlerts] returns the
    empty list, whatever the existing alerts are. *)
Theorem calm_dashboard_no_alerts
      (views : list ItemPlanningView.t) (existingAlerts : list InventoryAlert.t)
      (settings : Settings.t) (now : Date) :
  lowStockCount views = 0%nat ->
  expiringSoonCount views = 0%nat ->
  detectAlerts existingAlerts settings now views = [].
Proof.
  induction views as [|v rest IH]; intros Hlow Hexp; [reflexivity|].
  rewrite detectAlerts_cons.
  rewrite expiringSoonCount_cons in Hexp.
  unfold lowStockCount in Hlow. cbn [filter] in Hlow.
  destruct (ItemPlanningView.lowStockFlag v) eqn:Eflag; [discriminate Hlow|].
  destruct (ItemPlanningView.expiringSoonLots v) as [|l ls] eqn:Elots;
    [|discriminate Hexp].
  cbn [checkOf]. unfold lowStockCheck, expiryCheck. rewrite Eflag, Elots.
  apply IH; [exact Hlow | exact Hexp].
Qed.

Lemma calm_dashboard_no_alerts_witness :
  detectAlerts [feedAlert lowStock sent (hoursFromMidJune (-30)) None]
               DEFAULT_SETTINGS midJune2024
               [calculateItemPlanning feedItem [feedLot "L1" None 1000]
                  [feedSale "2024-05" 304] DEFAULT_SETTINGS midJune2024]
  = [].
Proof.
  apply calm_dashboard_no_alerts; reflexivity.
Defined.

(** X14. The low-stock alerts of one call are at most as many as the
    dashboard's low-stock count, and exactly as many when there is no
    existing alert. *)
Theorem lowStock_alerts_and_lowStockCount
      (views : list ItemPlanningView.t) (existingAlerts : list InventoryAlert.t)
      (settings : Settings.t) (now : Date) :
  (List.length (filter isLowStockAlert (detectAlerts existingAlerts settings now views))
   <= lowStockCount views)%nat
  /\ List.length (filter isLowStockAlert (detectAlerts [] settings now views))
     = lowStockCount views.
Proof.
  assert (Hexp : forall ex v,
            filter isLowStockAlert (checkOf ex settings now expiry v) = []).
  { intros ex v. destruct (checkOf_at_most_one ex settings now expiry v) as [-> | ->];
      reflexivity. }
  split.
  - induction views as [|v rest IH]; [simpl; lia|].
    rewrite detectAlerts_cons, !filter_app, !length_app, Hexp.
    unfold lowStockCount in *. cbn [filter checkOf]. unfold lowStockCheck.
    destruct (ItemPlanningView.lowStockFlag v); cbn [List.length filter]; [|lia].
    destruct (find _ existingAlerts); cbn [List.length filter isLowStockAlert]; simpl; lia.
  - induction views as [|v rest IH]; [reflexivity|].
    rewrite detectAlerts_cons, !filter_app, !length_app, Hexp, IH.
    unfold lowStockCount. cbn [filter checkOf]. unfold lowStockCheck.
    destruct (ItemPlanningView.lowStockFlag v); reflexivity.
Qed.

(** ** Existing alerts only ever suppress *)

(** X15. The output shrinks as the existing alerts grow, and depends on
    them as a set only: if every alert of [existingAlerts] is also in
    [existingAlerts'], every alert emitted against [existingAlerts'] is
    emitted against [existingAlerts]; two lists with the same members, in
    any order and multiplicity, give the same output. *)
Theorem more_existing_alerts_fewer_new
      (views : list ItemPlanningView.t)
      (existingAlerts existingAlerts' : list InventoryAlert.t)
      (settings : Settings.t) (now : Date) :
  incl existingAlerts existingAlerts' ->
  incl (detectAlerts existingAlerts' settings now views)
       (detectAlerts existingAlerts settings now views)
  /\ (incl existingAlerts' existingAlerts ->
      detectAlerts existingAlerts' settings now views
      = detectAlerts existingAlerts settings now views).
Proof.
  intros Hincl.
  assert (Hfind : forall ex ex' itemId type,
            incl ex ex' ->
            find (isRecentAlert settings now itemId type) ex' = None ->
            find (isRecentAlert settings now itemId type) ex = None).
  { intros ex ex' itemId type Hi Hnone.
    destruct (find _ ex) as [a|] eqn:E; [|reflexivity].
    apply find_some in E. destruct E as [Hin Hrec].
    rewrite (find_none _ _ Hnone a (Hi a Hin)) in Hrec. discriminate. }
  split.
  - intros n Hn. apply In_detectAlerts in Hn. destruct Hn as (v & type & Hv & Hn).
    apply In_detectAlerts. exists v, type. split; [exact Hv|].
    destruct (checkOf_cases existingAlerts' settings now type v)
      as [(E & Hq & Hnone)|(E & _)]; rewrite E in Hn; [|destruct Hn].
    destruct (checkOf_cases existingAlerts settings now type v)
      as [(E' & _)|(_ & Hsome)]; [now rewrite E'|].
    destruct (Hsome Hq) as [a Ha].
    rewrite (Hfind _ _ _ _ Hincl Hnone) in Ha. discriminate.
  - intros Hincl'. rewrite !detectAlerts_flat_map. apply flat_map_ext. intros v.
    assert (Hsame : forall type,
              checkOf existingAlerts' settings now type v
              = checkOf existingAlerts settings now type v).
    { intros type.
      destruct (checkOf_cases existingAlerts' settings now type v)
        as [(E & Hq & Hnone)|(E & Hsome)];
      destruct (checkOf_cases existingAlerts settings now type v)
        as [(E' & Hq' & Hnone')|(E' & Hsome')]; rewrite E, E'; try reflexivity.
      - destruct (Hsome' Hq) as [a Ha].
        rewrite (Hfind _ _ _ _ Hincl Hnone) in Ha. discriminate.
      - destruct (Hsome Hq') as [a Ha].
        rewrite (Hfind _ _ _ _ Hincl' Hnone') in Ha. discriminate. }
    now rewrite !Hsame.
Qed.

Lemma more_existing_alerts_fewer_new_witness :
  incl (detectAlerts
          [feedAlert lowStock pending (hoursFromMidJune (-1)) None]
          DEFAULT_SETTINGS midJune2024 [lowView])
       (detectAlerts [] DEFAULT_SETTINGS midJune2024 [lowView]).
Proof.
  apply (more_existing_alerts_fewer_new [lowView] []
           [feedAlert lowStock pending (hoursFromMidJune (-1)) None]
           DEFAULT_SETTINGS midJune2024).
  intros a [].
Defined.

(** X16. Views are checked one by one: the output for two lists of views
    put together is the output for the first followed by the output for the
    second. *)
Theorem detectAlerts_app
      (views views' : list ItemPlanningView.t) (existingAlerts : list InventoryAlert.t)
      (settings : Settings.t) (now : Date) :
  detectAlerts existingAlerts settings now (views ++ views')
  = detectAlerts existingAlerts settings now views
    ++ detectAlerts existingAlerts settings now views'.
Proof. rewrite !detectAlerts_flat_map. apply flat_map_app. Qed.

(** ** The alert-detection effect of the application shell *)

Section AlertEffect.

Variables (alerts : list InventoryAlert.t) (views : list ItemPlanningView.t)
          (settings : Settings.t) (now nowDetect : Date).

Lemma alertEffect_app :
  alertEffect alerts views settings now nowDetect
  = alerts ++ uniqueAlerts alerts settings now
                (detectAlerts alerts settings nowDetect views).
Proof.
  unfold alertEffect.
  destruct (detectAlerts alerts settings nowDetect views) as [|n ns];
    [now rewrite app_nil_r|].
  destruct (uniqueAlerts alerts settings now (n :: ns)); [now rewrite app_nil_r|].
  reflexivity.
Qed.

(** The test of the caller's filter, read off the code. *)
Lemma uniqueAlerts_In (newAlerts : list InventoryAlert.t) (n : InventoryAlert.t) :
  In n (uniqueAlerts alerts settings now newAlerts)
  <-> In n newAlerts
      /\ forall a, In a alerts ->
                   InventoryAlert.itemId a = InventoryAlert.itemId n ->
                   InventoryAlert.type a = InventoryAlert.type n ->
                   InventoryAlert.status a <> pending
                   /\ inCooldownSinceSentOrCreated settings now a = false.
Proof.
  unfold uniqueAlerts. rewrite filter_In. split; intros [Hin H]; split; trivial.
  - destruct (find _ alerts) as [b|] eqn:E; [discriminate|].
    intros a Ha Hid Hty. pose proof (find_none _ _ E a Ha) as Hf. cbv beta in Hf.
    apply String.eqb_eq in Hid. apply AlertType_eqb_eq in Hty.
    rewrite Hid, Hty in Hf. simpl in Hf. apply orb_false_elim in Hf.
    destruct Hf as [Hst Hc]. split; [|exact Hc].
    intros Ep. apply AlertStatus_eqb_eq in Ep. congruence.
  - destruct (find _ alerts) as [b|] eqn:E; [|reflexivity].
    apply find_some in E. destruct E as [Hb Hf].
    apply andb_prop in Hf. destruct Hf as [Hf Hsupp].
    apply andb_prop in Hf. destruct Hf as [Hid Hty].
    apply String.eqb_eq in Hid. apply AlertType_eqb_eq in Hty.
    destruct (H b Hb Hid Hty) as [Hst Hc]. rewrite Hc, orb_false_r in Hsupp.
    apply AlertStatus_eqb_eq in Hsupp. contradiction.
Qed.

Lemma pendingAlertCount_app (xs ys : list InventoryAlert.t) :
  pendingAlertCount (xs ++ ys) = (pendingAlertCount xs + pendingAlertCount ys)%nat.
Proof. unfold pendingAlertCount. now rewrite filter_app, length_app. Qed.

Lemma pendingAlertCount_all_pending (xs : list InventoryAlert.t) :
  (forall n, In n xs -> InventoryAlert.status n = pending) ->
  pendingAlertCount xs = List.length xs.
Proof.
  unfold pendingAlertCount. induction xs as [|x rest IH]; intros H; [reflexivity|].
  simpl. rewrite (H x (or_introl eq_refl)). simpl. f_equal.
  apply IH. intros n Hn. apply H. now right.
Qed.

(** X17. The effect only appends: it leaves the alerts it found untouched
    and in place, every alert it adds is a pending alert that [detectAlerts]
    returned, and the badge count [pendingAlertCount] grows by exactly the
    number of alerts added. *)
Theorem alertEffect_appends_pending :
  exists added,
    alertEffect alerts views settings now nowDetect = alerts ++ added
    /\ (forall n, In n added ->
                  InventoryAlert.status n = pending
                  /\ In n (detectAlerts alerts settings nowDetect views))
    /\ pendingAlertCount (alertEffect alerts views settings now nowDetect)
       = (pendingAlertCount alerts + List.length added)%nat.
Proof.
  exists (uniqueAlerts alerts settings now (detectAlerts alerts settings nowDetect views)).
  assert (Hadded : forall n,
            In n (uniqueAlerts alerts settings now
                    (detectAlerts alerts settings nowDetect views)) ->
            InventoryAlert.status n = pending
            /\ In n (detectAlerts alerts settings nowDetect views)).
  { intros n Hn. apply uniqueAlerts_In in Hn. destruct Hn as [Hn _].
    split; [|exact Hn].
    apply detectAlerts_emits in Hn. destruct Hn as (v & _ & -> & _).
    destruct (alertOf_fields nowDetect (InventoryAlert.type n) v) as (_ & _ & E).
    exact E. }
  split; [apply alertEffect_app|]. split; [exact Hadded|].
  rewrite alertEffect_app, pendingAlertCount_app. f_equal.
  apply pendingAlertCount_all_pending. intros n Hn. apply (Hadded n Hn).
Qed.

(** Each qualifying view is covered after the effect, by the alert the
    detector emitted or by the one that held it back. *)
Lemma alertEffect_cover
      (v : ItemPlanningView.t) (type : AlertType) :
  In v views ->
  qualifies type v ->
  exists a,
    In a (alertEffect alerts views settings now nowDetect)
    /\ InventoryAlert.itemId a = Item.id (ItemPlanningView.item v)
    /\ InventoryAlert.type a = type
    /\ (InventoryAlert.status a = pending
        \/ inCooldown settings nowDetect a = true
        \/ inCooldownSinceSentOrCreated settings now a = true).
Proof.
  intros Hv Hq. rewrite alertEffect_app.
  destruct (checkOf_cases alerts settings nowDetect type v)
    as [(E & _ & _)|(_ & Hsome)].
  - (* the detector emits [n]; the filter keeps it or names what covers it *)
    set (n := alertOf nowDetect type v) in *.
    destruct (alertOf_fields nowDetect type v) as (N1 & N2 & N3). fold n in N1, N2, N3.
    assert (Hn : In n (detectAlerts alerts settings nowDetect views)).
    { apply In_detectAlerts. exists v, type. split; [exact Hv|]. rewrite E. now left. }
    destruct (find (fun a =>
                      (InventoryAlert.itemId a =? InventoryAlert.itemId n)%string
                      && AlertType_eqb (InventoryAlert.type a) (InventoryAlert.type n)
                      && (AlertStatus_eqb (InventoryAlert.status a) pending
                          || inCooldownSinceSentOrCreated settings now a))
                   alerts) as [a|] eqn:Efind.
    + apply find_some in Efind. destruct Efind as [Ha Hf].
      apply andb_prop in Hf. destruct Hf as [Hf Hsupp].
      apply andb_prop in Hf. destruct Hf as [Hid Hty].
      apply String.eqb_eq in Hid. apply AlertType_eqb_eq in Hty.
      exists a. split; [apply in_or_app; now left|].
      split; [congruence|]. split; [congruence|].
      apply orb_prop in Hsupp. destruct Hsupp as [Hp|Hc]; [left|right; now right].
      now apply AlertStatus_eqb_eq.
    + exists n. split; [|now repeat split; try left].
      apply in_or_app. right. unfold uniqueAlerts. apply filter_In.
      split; [exact Hn|]. now rewrite Efind.
  - (* the detector is suppressed by an alert that is already there *)
    destruct (Hsome Hq) as [a Ha]. apply find_some in Ha.
    destruct Ha as [Hin Hrec]. apply isRecentAlert_iff in Hrec.
    destruct Hrec as (Hid & Hty & Hsupp).
    exists a. split; [apply in_or_app; now left|].
    repeat split; try assumption. destruct Hsupp; [now left | right; now left].
Qed.

(** X18. After the effect no qualifying condition is left without an alert:
    for every view that asks for an alert of some type, the alerts then hold
    one of that product and type that is pending, or within the cooldown by
    the detector's test, or within it by the filter's test. *)
Theorem alertEffect_covers_every_condition
      (v : ItemPlanningView.t) (type : AlertType) :
  In v views ->
  qualifies type v ->
  exists a,
    In a (alertEffect alerts views settings now nowDetect)
    /\ InventoryAlert.itemId a = Item.id (ItemPlanningView.item v)
    /\ InventoryAlert.type a = type
    /\ (InventoryAlert.status a = pending
        \/ inCooldown settings nowDetect a = true
        \/ inCooldownSinceSentOrCreated settings now a = true).
Proof. apply alertEffect_cover. Qed.

End AlertEffect.

Lemma alertEffect_covers_every_condition_witness :
  exists a,
    In a (alertEffect [] [lowView] DEFAULT_SETTINGS midJune2024 midJune2024)
    /\ InventoryAlert.itemId a = "A"%string
    /\ InventoryAlert.type a = lowStock
    /\ (InventoryAlert.status a = pending
        \/ inCooldown DEFAULT_SETTINGS midJune2024 a = true
        \/ inCooldownSinceSentOrCreated DEFAULT_SETTINGS midJune2024 a = true).
Proof.
  apply (alertEffect_covers_every_condition [] [lowView] DEFAULT_SETTINGS
           midJune2024 midJune2024 lowView lowStock).
  - left. reflexivity.
  - reflexivity.
Defined.

Lemma nil_of_no_member {A : Type} (xs : list A) : (forall x, ~ In x xs) -> xs = [].
Proof.
  destruct xs as [|x rest]; [reflexivity|]. intros H.
  exfalso. apply (H x). now left.
Qed.

(** X19. A second run of the effect adds nothing: if every alert that was
    within its cooldown at the first run, by the detector's test or by the
    filter's, is still within it by the filter's test at the second run's
    reading [now'], then the second run leaves the alerts as the first run
    left them, whatever [detectAlerts] reads as its own clock. *)
Theorem alertEffect_second_run_adds_nothing
      (alerts : list InventoryAlert.t) (views : list ItemPlanningView.t)
      (settings : Settings.t) (now nowDetect now' nowDetect' : Date) :
  (forall a, In a alerts ->
             inCooldown settings nowDetect a = true
             \/ inCooldownSinceSentOrCreated settings now a = true ->
             inCooldownSinceSentOrCreated settings now' a = true) ->
  alertEffect (alertEffect alerts views settings now nowDetect)
              views settings now' nowDetect'
  = alertEffect alerts views settings now nowDetect.
Proof.
  intros Hstill.
  set (alerts1 := alertEffect alerts views settings now nowDetect).
  rewrite (alertEffect_app alerts1).
  rewrite (nil_of_no_member
             (uniqueAlerts alerts1 settings now'
                (detectAlerts alerts1 settings nowDetect' views)));
    [apply app_nil_r|].
  intros n Hn. apply uniqueAlerts_In in Hn. destruct Hn as [Hn Hnone].
  apply In_detectAlerts in Hn. destruct Hn as (v & type & Hv & Hn).
  destruct (checkOf_cases alerts1 settings nowDetect' type v)
    as [(E & Hq & _)|(E & _)]; rewrite E in Hn; [|destruct Hn].
  destruct Hn as [<-|[]].
  destruct (alertOf_fields nowDetect' type v) as (N1 & N2 & _).
  destruct (alertEffect_cover alerts views settings now nowDetect v type Hv Hq)
    as (a & Ha & Hid & Hty & Hsupp).
  fold alerts1 in Ha.
  destruct (Hnone a Ha) as [Hst Hc]; [congruence | congruence |].
  destruct Hsupp as [Hp|Hsupp]; [contradiction|].
  assert (Hold : In a alerts).
  { unfold alerts1 in Ha. rewrite alertEffect_app in Ha.
    apply in_app_or in Ha. destruct Ha as [Ha|Ha]; [exact Ha|].
    apply uniqueAlerts_In in Ha. destruct Ha as [Ha _].
    apply detectAlerts_emits in Ha. destruct Ha as (v' & _ & Ea & _).
    destruct (alertOf_fields nowDetect (InventoryAlert.type a) v') as (_ & _ & Ep).
    rewrite <- Ea in Ep. contradiction. }
  rewrite (Hstill a Hold Hsupp) in Hc. discriminate.
Qed.

Lemma alertEffect_second_run_adds_nothing_witness :
  let alerts :=
    [feedAlert expiry sent (hoursFromMidJune (-30)) (Some (hoursFromMidJune (-2)))] in
  let now' := {| getTime := hoursFromMidJune 1; getFullYear := 2024; getMonth := 5 |} in
  alertEffect (alertEffect alerts [lowView] DEFAULT_SETTINGS midJune2024 midJune2024)
              [lowView] DEFAULT_SETTINGS now' now'
  = alertEffect alerts [lowView] DEFAULT_SETTINGS midJune2024 midJune2024.
Proof.
  intros alerts now'.
  apply (alertEffect_second_run_adds_nothing alerts [lowView] DEFAULT_SETTINGS
           midJune2024 midJune2024 now' now').
  intros a [<-|[]] _. vm_compute. reflexivity.
Defined.

(** ** Marking an alert sent, dismissing it *)

(** X20. Marking an alert as sent silences its product and type for the
    cooldown: once the alert updated by [handleAction(alertObj, 'sent')] at
    the instant [sentAt] is among the existing alerts, a detection run whose
    [now] is less than [notificationCooldownHours] hours after [sentAt]
    emits no alert of that product and type. *)
Theorem marking_sent_silences
      (views : list ItemPlanningView.t) (existingAlerts : list InventoryAlert.t)
      (settings : Settings.t) (sentAt now : Date) (alertObj : InventoryAlert.t) :
  In (handleAction settings sentAt alertObj markSent) existingAlerts ->
  sentWithin (Settings.notificationCooldownHours settings) now (getTime sentAt) ->
  forall n, In n (detectAlerts existingAlerts settings now views) ->
            ~ (InventoryAlert.itemId n = InventoryAlert.itemId alertObj
               /\ InventoryAlert.type n = InventoryAlert.type alertObj).
Proof.
  intros Hin Hwithin n Hn [Hid Hty].
  apply detectAlerts_emits in Hn. destruct Hn as (v & _ & En & Hfind).
  destruct (alertOf_fields now (InventoryAlert.type n) v) as (Evid & _ & _).
  rewrite <- En, Hid in Evid. rewrite <- Evid, Hty in Hfind.
  apply (find_hit _ _ _ Hin) in Hfind; [exact Hfind|].
  apply isRecentAlert_iff. repeat split. right.
  now apply (inCooldown_sentWithin settings now
               (handleAction settings sentAt alertObj markSent)
               (getTime sentAt) eq_refl).
Qed.

Lemma marking_sent_silences_witness :
  Forall (fun n => ~ (InventoryAlert.itemId n = "A"%string
                      /\ InventoryAlert.type n = lowStock))
         (detectAlerts
            [handleAction DEFAULT_SETTINGS midJune2024
               (feedAlert lowStock pending (hoursFromMidJune (-3)) None) markSent]
            DEFAULT_SETTINGS
            {| getTime := hoursFromMidJune 23; getFullYear := 2024; getMonth := 5 |}
            [lowView]).
Proof.
  apply Forall_forall.
  apply (marking_sent_silences [lowView]
           [handleAction DEFAULT_SETTINGS midJune2024
              (feedAlert lowStock pending (hoursFromMidJune (-3)) None) markSent]
           DEFAULT_SETTINGS midJune2024
           {| getTime := hoursFromMidJune 23; getFullYear := 2024; getMonth := 5 |}
           (feedAlert lowStock pending (hoursFromMidJune (-3)) None)).
  - left. reflexivity.
  - vm_compute. reflexivity.
Defined.

(** X21. Dismissing an alert that was never sent does not silence the
    detector: if every existing alert of a view's product and of the type
    the view qualifies for is the result of
    [handleAction(alertObj, 'dismissed')] on an alert without [lastSentAt],
    [detectAlerts] emits a new alert of that type for the product, however
    recently the dismissed alerts were created. *)
Theorem dismissing_unsent_does_not_silence
      (views : list ItemPlanningView.t) (existingAlerts : list InventoryAlert.t)
      (settings : Settings.t) (now : Date)
      (v : ItemPlanningView.t) (type : AlertType) :
  In v views ->
  qualifies type v ->
  (forall b, In b existingAlerts ->
             InventoryAlert.itemId b = Item.id (ItemPlanningView.item v) ->
             InventoryAlert.type b = type ->
             exists alertObj dismissedAt,
               b = handleAction settings dismissedAt alertObj markDismissed
               /\ InventoryAlert.lastSentAt alertObj = None) ->
  In (alertOf now type v) (detectAlerts existingAlerts settings now views).
Proof.
  intros Hv Hq Hall. apply In_detectAlerts. exists v, type. split; [exact Hv|].
  destruct (checkOf_cases existingAlerts settings now type v)
    as [(E & _)|(_ & Hsome)]; [rewrite E; now left|].
  exfalso. destruct (Hsome Hq) as [b Hb]. apply find_some in Hb.
  destruct Hb as [Hin Hrec].
  pose proof Hrec as Hrec'. apply isRecentAlert_iff in Hrec'.
  destruct Hrec' as (Hid & Hty & _).
  destruct (Hall b Hin Hid Hty) as (alertObj & at_ & -> & Hnone).
  rewrite isRecentAlert_without_lastSentAt in Hrec; [discriminate | exact Hnone |].
  discriminate.
Qed.

Lemma dismissing_unsent_does_not_silence_witness :
  In (alertOf midJune2024 lowStock lowView)
     (detectAlerts
        [handleAction DEFAULT_SETTINGS midJune2024
           (feedAlert lowStock pending (hoursFromMidJune (-1)) None) markDismissed]
        DEFAULT_SETTINGS midJune2024 [lowView]).
Proof.
  apply (dismissing_unsent_does_not_silence [lowView]
           [handleAction DEFAULT_SETTINGS midJune2024
              (feedAlert lowStock pending (hoursFromMidJune (-1)) None) markDismissed]
           DEFAULT_SETTINGS midJune2024 lowView lowStock).
  - left. reflexivity.
  - reflexivity.
  - intros b [<-|[]] _ _.
    exists (feedAlert lowStock pending (hoursFromMidJune (-1)) None), midJune2024.
    split; reflexivity.
Defined.

(** ** The stock take *)

(** What a successful [handleSave] went through. *)
Lemma StockTake_handleSave_saved
      (lots lots' : list InventoryLot.t) (selectedLotId : string)
      (countedQty : option Q) (reason : CountReason) (notes uuid : string)
      (now : Date) (entry : StockCountEntry.t) :
  StockTake_handleSave lots selectedLotId countedQty reason notes uuid now
  = StockTakeSaved entry lots' ->
  selectedLotId <> ""%string
  /\ exists qty lot,
       countedQty = Some qty
       /\ 0 <= qty
       /\ In lot lots
       /\ InventoryLot.id lot = selectedLotId
       /\ StockCountEntry.countedQty entry = qty
       /\ StockCountEntry.lotId entry = selectedLotId
       /\ lots' = putLot (withQuantityRemaining lot qty) lots.
Proof.
  unfold StockTake_handleSave.
  destruct (String.eqb_spec selectedLotId "") as [E|E]; [discriminate|].
  destruct countedQty as [qty|]; [|discriminate].
  case_ltb qty 0; [discriminate|].
  destruct (find _ lots) as [lot|] eqn:Efind; [|discriminate].
  intros H. injection H as <- <-. split; [exact E|].
  apply find_some in Efind. destruct Efind as [Hin Hid].
  apply String.eqb_eq in Hid.
  exists qty, lot. now repeat split.
Qed.

Lemma putLot_no_match (u : InventoryLot.t) (lots : list InventoryLot.t) :
  ~ In (InventoryLot.id u) (map InventoryLot.id lots) -> putLot u lots = lots.
Proof.
  unfold putLot. induction lots as [|l rest IH]; intros H; [reflexivity|]. simpl.
  destruct (String.eqb_spec (InventoryLot.id l) (InventoryLot.id u)) as [E|E].
  - exfalso. apply H. left. exact E.
  - f_equal. apply IH. intros Hin. apply H. now right.
Qed.

(** X22. A stock take keeps the store in shape: when [handleSave] saves, a
    lot was selected and the counted quantity is a number that is not
    negative; the lots afterwards carry the same ids in the same order;
    every lot with the selected id now holds the counted quantity; every
    other lot is as it was. *)
Theorem stock_take_keeps_the_lots
      (lots lots' : list InventoryLot.t) (selectedLotId : string)
      (countedQty : option Q) (reason : CountReason) (notes uuid : string)
      (now : Date) (entry : StockCountEntry.t) :
  StockTake_handleSave lots selectedLotId countedQty reason notes uuid now
  = StockTakeSaved entry lots' ->
  exists qty,
    countedQty = Some qty
    /\ 0 <= qty
    /\ map InventoryLot.id lots' = map InventoryLot.id lots
    /\ (forall l, In l lots' -> InventoryLot.id l = selectedLotId ->
                  InventoryLot.quantityRemaining l = qty)
    /\ (forall l, InventoryLot.id l <> selectedLotId ->
                  (In l lots' <-> In l lots)).
Proof.
  intros H. apply StockTake_handleSave_saved in H.
  destruct H as (_ & qty & lot & -> & Hq & Hin & Hid & _ & _ & ->).
  exists qty. split; [reflexivity|]. split; [exact Hq|].
  unfold putLot. cbn [withQuantityRemaining InventoryLot.id].
  split; [|split].
  - rewrite map_map. apply map_ext. intros l.
    destruct (String.eqb_spec (InventoryLot.id l) (InventoryLot.id lot)) as [E|E];
      [now rewrite E | reflexivity].
  - intros l Hl El. apply in_map_iff in Hl. destruct Hl as (l0 & <- & _).
    destruct (String.eqb_spec (InventoryLot.id l0) (InventoryLot.id lot)) as [E|E];
      [reflexivity|].
    exfalso. apply E. simpl in El. congruence.
  - intros l Hl. rewrite in_map_iff. split.
    + intros (l0 & E0 & Hl0).
      destruct (String.eqb_spec (InventoryLot.id l0) (InventoryLot.id lot)) as [E|E].
      * exfalso. apply Hl. rewrite <- E0. simpl. congruence.
      * now rewrite <- E0.
    + intros Hl0. exists l. split; [|exact Hl0].
      destruct (String.eqb_spec (InventoryLot.id l) (InventoryLot.id lot)) as [E|E];
        [|reflexivity].
      exfalso. apply Hl. congruence.
Qed.

Section StockTakeAndPlanning.

Variables (lots : list InventoryLot.t) (lot : InventoryLot.t) (qty : Q).

Hypothesis unique_ids : NoDup (map InventoryLot.id lots).
Hypothesis lot_in_store : In lot lots.


Lemma activeLots_putLot_other (item : Item.t) :
  InventoryLot.itemId lot <> Item.id item ->
  activeLots item (putLot (withQuantityRemaining lot qty) lots)
  = activeLots item lots.
Proof.
  intros Hother. revert unique_ids lot_in_store.
  induction lots as [|l rest IH]; intros Hnodup Hin; [destruct Hin|].
  inversion Hnodup as [|? ? Hnotin Hrest]; subst.
  unfold putLot. cbn [map]. fold (putLot (withQuantityRemaining lot qty) rest).
  cbn [withQuantityRemaining InventoryLot.id].
  assert (Hskip : forall l0, InventoryLot.itemId l0 = InventoryLot.itemId lot ->
                             (InventoryLot.itemId l0 =? Item.id item)%string = false).
  { intros l0 E. apply String.eqb_neq. congruence. }
  destruct Hin as [->|Hin].
  - rewrite String.eqb_refl, putLot_no_match by exact Hnotin.
    unfold activeLots. cbn [filter].
    now rewrite !Hskip by reflexivity.
  - destruct (String.eqb_spec (InventoryLot.id l) (InventoryLot.id lot)) as [E|E].
    + exfalso. apply Hnotin. rewrite E. now apply in_map.
    + unfold activeLots in *. cbn [filter]. now rewrite (IH Hrest Hin).
Qed.

End StockTakeAndPlanning.


(** X24. A stock take touches one product only: with unique lot ids, after
    a saved stock take the whole planning view of every product other than
    the counted lot's is the same as before. *)
Theorem stock_take_leaves_other_products
      (lots lots' : list InventoryLot.t) (selectedLotId : string)
      (countedQty : option Q) (reason : CountReason) (notes uuid : string)
      (now : Date) (entry : StockCountEntry.t)
      (item : Item.t) (sales : list SalesHistory.t) (settings : Settings.t)
      (currentDate : Date) :
  NoDup (map InventoryLot.id lots) ->
  StockTake_handleSave lots selectedLotId countedQty reason notes uuid now
  = StockTakeSaved entry lots' ->
  (forall l, In l lots -> InventoryLot.id l = selectedLotId ->
             InventoryLot.itemId l <> Item.id item) ->
  calculateItemPlanning item lots' sales settings currentDate
  = calculateItemPlanning item lots sales settings currentDate.
Proof.
  intros Hnodup H Hother. apply StockTake_handleSave_saved in H.
  destruct H as (_ & qty & lot & -> & _ & Hin & Hid & _ & _ & ->).
  apply calculateItemPlanning_same_inputs; [|reflexivity].
  apply (activeLots_putLot_other lots lot qty Hnodup Hin item).
  now apply Hother.
Qed.

Lemma stock_take_keeps_the_lots_witness :
  exists qty,
    Some 25 = Some qty
    /\ 0 <= qty
    /\ map InventoryLot.id
         [feedLot "L1" None 100; withQuantityRemaining (feedLot "L2" None 40) 25]
       = map InventoryLot.id [feedLot "L1" None 100; feedLot "L2" None 40]
    /\ (forall l,
           In l [feedLot "L1" None 100; withQuantityRemaining (feedLot "L2" None 40) 25] ->
           InventoryLot.id l = "L2"%string -> InventoryLot.quantityRemaining l = qty)
    /\ (forall l,
           InventoryLot.id l <> "L2"%string ->
           (In l [feedLot "L1" None 100; withQuantityRemaining (feedLot "L2" None 40) 25]
            <-> In l [feedLot "L1" None 100; feedLot "L2" None 40])).
Proof.
  apply (stock_take_keeps_the_lots
           [feedLot "L1" None 100; feedLot "L2" None 40] _ "L2" (Some 25)
           routine "" "count-1" midJune2024
           {| StockCountEntry.id := "count-1"
            ; StockCountEntry.date := IsoDate (getTime midJune2024)
            ; StockCountEntry.lotId := "L2"
            ; StockCountEntry.countedQty := 25
            ; StockCountEntry.reason := routine
            ; StockCountEntry.notes := "" |}).
  reflexivity.
Defined.


(** The product of the example with another id. *)
Lemma stock_take_leaves_other_products_witness :
  let other := {| Item.id := "B"; Item.skuCode := "SKU-B"; Item.name := "Silage"
                ; Item.category := Other; Item.packSize := 10; Item.leadTimeDays := 7
                ; Item.moq := 0; Item.costPerUnit := 5; Item.notes := None
                ; Item.shelfLifeDays := None |} in
  calculateItemPlanning other
    [feedLot "L1" None 100; withQuantityRemaining (feedLot "L2" None 40) 25]
    [] DEFAULT_SETTINGS midJune2024
  = calculateItemPlanning other [feedLot "L1" None 100; feedLot "L2" None 40]
      [] DEFAULT_SETTINGS midJune2024.
Proof.
  intros other.
  apply (stock_take_leaves_other_products
           [feedLot "L1" None 100; feedLot "L2" None 40] _ "L2" (Some 25)
           routine "" "count-1" midJune2024
           {| StockCountEntry.id := "count-1"
            ; StockCountEntry.date := IsoDate (getTime midJune2024)
            ; StockCountEntry.lotId := "L2"
            ; StockCountEntry.countedQty := 25
            ; StockCountEntry.reason := routine
            ; StockCountEntry.notes := "" |}
           other [] DEFAULT_SETTINGS midJune2024).
  - repeat constructor; simpl; intuition discriminate.
  - reflexivity.
  - intros l [<-|[<-|[]]] _; simpl; discriminate.
Defined.

Lemma flagged_below_reorder_point_gets_order_witness :
  let settings := withLowStockRule DEFAULT_SETTINGS belowReorderPoint in
  0 < ItemPlanningView.suggestedOrderQty
        (calculateItemPlanning feedItem [feedLot "L1" None 100]
           [feedSale "2024-05" 304] settings midJune2024)
  \/ ItemPlanningView.freshnessCapQty
       (calculateItemPlanning feedItem [feedLot "L1" None 100]
          [feedSale "2024-05" 304] settings midJune2024) == 0.
Proof.
  intros settings.
  apply (flagged_below_reorder_point_gets_order feedItem [feedLot "L1" None 100]
           [feedSale "2024-05" 304] settings midJune2024).
  - reflexivity.
  - vm_compute. discriminate.
  - vm_compute. discriminate.
  - vm_compute. reflexivity.
Defined.

(** ** The expiry warning window *)

Lemma isExpiringSoon_window (settings : Settings.t) (currentDate : Date)
      (l : InventoryLot.t) :
  isExpiringSoon settings currentDate l = true
  <-> exists expDate,
        InventoryLot.expiryDate l = Some (IsoDate expDate)
        /\ (getTime currentDate < expDate)%Z
        /\ inject_Z (expDate - getTime currentDate)
           <= Settings.expiryWarningDays settings * inject_Z msPerDay.
Proof.
  pose proof msPerDay_pos as Hpos.
  unfold isExpiringSoon.
  destruct (InventoryLot.expiryDate l) as [[expDate|]|]; simpl.
  - set (span := inject_Z (expDate - getTime currentDate)).
    set (ms := inject_Z msPerDay) in *.
    rewrite andb_true_iff, leb_le, gtb_gt.
    assert (Espan : span == (span / ms) * ms) by (field; lra).
    split.
    + intros [Hle Hgt]. exists expDate. split; [reflexivity|]. split.
      * apply Qdiv_pos_inv in Hgt; [|exact Hpos].
        unfold span in Hgt. change 0 with (inject_Z 0) in Hgt.
        rewrite <- Zlt_Qlt in Hgt. lia.
      * fold span. rewrite Espan. apply Qmult_le_compat_r; [exact Hle | lra].
    + intros (e & E & Hlt & Hle). injection E as <-. fold span in Hle. split.
      * apply Qle_shift_div_r; assumption.
      * apply Qlt_shift_div_l; [exact Hpos|].
        assert (0 < span); [|lra].
        unfold span. change 0 with (inject_Z 0). rewrite <- Zlt_Qlt. lia.
  - split; [discriminate | intros (e & E & _); discriminate].
  - split; [discriminate | intros (e & E & _); discriminate].
Qed.

(** X25. Which lots expire soon, in milliseconds: a lot is in
    [expiringSoonLots] exactly when it is a lot of the input that belongs to
    the product, is [available], and has an expiry date that parses to an
    instant strictly after the current date and at most
    [expiryWarningDays * 86400000] milliseconds after it. *)
Theorem expiringSoonLots_window
      (item : Item.t) (lots : list InventoryLot.t) (sales : list SalesHistory.t)
      (settings : Settings.t) (currentDate : Date) (l : InventoryLot.t) :
  In l (ItemPlanningView.expiringSoonLots
          (calculateItemPlanning item lots sales settings currentDate))
  <-> In l lots
      /\ InventoryLot.itemId l = Item.id item
      /\ InventoryLot.status l = available
      /\ exists expDate,
           InventoryLot.expiryDate l = Some (IsoDate expDate)
           /\ (getTime currentDate < expDate)%Z
           /\ inject_Z (expDate - getTime currentDate)
              <= Settings.expiryWarningDays settings * inject_Z 86400000.
Proof.
  cbn [ItemPlanningView.expiringSoonLots calculateItemPlanning].
  unfold expiringSoonLots, activeLots.
  rewrite !filter_In, isExpiringSoon_window, andb_true_iff, String.eqb_eq.
  change (inject_Z msPerDay) with (inject_Z 86400000).
  assert (Hst : LotStatus_eqb (InventoryLot.status l) available = true
                <-> InventoryLot.status l = available)
    by (destruct (InventoryLot.status l); simpl; split; congruence).
  rewrite Hst. tauto.
Qed.

(** X26. A warning window that is not positive switches expiry warnings
    off: with [expiryWarningDays <= 0] no view built by the application
    shell has a lot expiring soon, the dashboard counts none, and every
    alert that [detectAlerts] emits on those views is a low-stock alert. *)
Theorem no_warning_window_no_expiry_alerts
      (items : list Item.t) (lots : list InventoryLot.t)
      (sales : list SalesHistory.t) (settings : Settings.t) (currentDate now : Date)
      (existingAlerts : list InventoryAlert.t) :
  Settings.expiryWarningDays settings <= 0 ->
  expiringSoonCount (planningViews items lots sales settings currentDate) = 0%nat
  /\ forall n,
       In n (detectAlerts existingAlerts settings now
               (planningViews items lots sales settings currentDate)) ->
       InventoryAlert.type n = lowStock.
Proof.
  intros Hwin.
  assert (Hnone : forall item,
            expiringSoonLots item lots settings currentDate = []).
  { intros item. apply nil_of_no_member. intros l Hl.
    unfold expiringSoonLots in Hl. apply filter_In in Hl. destruct Hl as [_ Hl].
    apply isExpiringSoon_window in Hl. destruct Hl as (e & _ & Hlt & Hle).
    assert (0 < inject_Z (e - getTime currentDate))
      by (change 0 with (inject_Z 0); rewrite <- Zlt_Qlt; lia).
    pose proof msPerDay_pos as Hpos.
    assert (Settings.expiryWarningDays settings * inject_Z msPerDay <= 0).
    { rewrite <- (Qmult_0_l (inject_Z msPerDay)).
      apply Qmult_le_compat_r; [exact Hwin | lra]. }
    lra. }
  split.
  - unfold planningViews. induction items as [|item rest IH]; [reflexivity|].
    cbn [map]. rewrite expiringSoonCount_cons, IH.
    cbn [ItemPlanningView.expiringSoonLots calculateItemPlanning].
    now rewrite Hnone.
  - intros n Hn. apply In_detectAlerts in Hn. destruct Hn as (v & type & Hv & Hn).
    destruct type.
    + apply In_checkOf_key in Hn. apply Hn.
    + exfalso. unfold planningViews in Hv. apply in_map_iff in Hv.
      destruct Hv as (item & <- & _).
      cbn [checkOf] in Hn. unfold expiryCheck in Hn.
      cbn [ItemPlanningView.expiringSoonLots calculateItemPlanning] in Hn.
      rewrite Hnone in Hn. destruct Hn.
Qed.

Lemma no_warning_window_no_expiry_alerts_witness :
  expiringSoonCount
    (planningViews [feedItem]
       [feedLot "L1" (Some (IsoDate (hoursFromMidJune 48))) 100] []
       (withExpiryWarningDays DEFAULT_SETTINGS 0) midJune2024) = 0%nat.
Proof.
  apply (no_warning_window_no_expiry_alerts [feedItem]
           [feedLot "L1" (Some (IsoDate (hoursFromMidJune 48))) 100] []
           (withExpiryWarningDays DEFAULT_SETTINGS 0) midJune2024 midJune2024 []).
  vm_compute. discriminate.
Defined.

(** ** What each forecast method reads *)

Lemma find_filter_implied {A : Type} (p q : A -> bool) (xs : list A) :
  (forall x, p x = true -> q x = true) ->
  find p (filter q xs) = find p xs.
Proof.
  intros Hpq. induction xs as [|x rest IH]; [reflexivity|]. simpl.
  destruct (p x) eqn:Ep.
  - rewrite (Hpq x Ep). simpl. now rewrite Ep.
  - destruct (q x); simpl; [rewrite Ep|]; exact IH.
Qed.

Lemma filter_comm {A : Type} (p q : A -> bool) (xs : list A) :
  filter p (filter q xs) = filter q (filter p xs).
Proof.
  induction xs as [|x rest IH]; [reflexivity|]. simpl.
  destruct (p x) eqn:Ep, (q x) eqn:Eq; simpl; rewrite ?Ep, ?Eq, IH; reflexivity.
Qed.

Lemma fold_left_ext_in {A B : Type} (f g : A -> B -> A) (xs : list B) (acc : A) :
  (forall a x, In x xs -> f a x = g a x) ->
  fold_left f xs acc = fold_left g xs acc.
Proof.
  revert acc. induction xs as [|x rest IH]; intros acc H; [reflexivity|]. simpl.
  rewrite (H acc x (or_introl eq_refl)). apply IH.
  intros a y Hy. apply H. now right.
Qed.

(** X27. The weighted forecast reads the six months only: under
    [weightedAverage] the sales records whose month is not one of the six
    calendar months ending with the current one have no influence on
    [avgMonthlyDemand]. *)
Theorem weighted_forecast_reads_six_months
      (item : Item.t) (lots : list InventoryLot.t) (sales : list SalesHistory.t)
      (settings : Settings.t) (currentDate : Date) :
  Settings.forecastMethod settings = weightedAverage ->
  ItemPlanningView.avgMonthlyDemand
    (calculateItemPlanning item lots sales settings currentDate)
  = ItemPlanningView.avgMonthlyDemand
      (calculateItemPlanning item lots (filter (inLast6Months currentDate) sales)
         settings currentDate).
Proof.
  intros Hm. cbn [ItemPlanningView.avgMonthlyDemand calculateItemPlanning].
  unfold avgMonthlyDemand. rewrite Hm. unfold weightedTotals.
  rewrite (fold_left_ext_in
             (weightedStep item sales settings)
             (weightedStep item (filter (inLast6Months currentDate) sales) settings));
    [reflexivity|].
  intros [ws w] [idx month] Hin. apply in_combine_r in Hin.
  unfold weightedStep, monthSale, itemSales.
  rewrite filter_comm, (find_filter_implied _ (inLast6Months currentDate));
    [reflexivity|].
  intros s Hs. apply String.eqb_eq in Hs. unfold inLast6Months.
  apply existsb_exists. exists month. split; [exact Hin|].
  now apply String.eqb_eq.
Qed.

Lemma weighted_forecast_reads_six_months_witness :
  ItemPlanningView.avgMonthlyDemand
    (calculateItemPlanning feedItem []
       [feedSale "2023-01" 900; feedSale "2024-06" 60]
       (withForecastMethod DEFAULT_SETTINGS weightedAverage) midJune2024)
  = ItemPlanningView.avgMonthlyDemand
      (calculateItemPlanning feedItem []
         (filter (inLast6Months midJune2024)
                 [feedSale "2023-01" 900; feedSale "2024-06" 60])
         (withForecastMethod DEFAULT_SETTINGS weightedAverage) midJune2024).
Proof.
  apply (weighted_forecast_reads_six_months feedItem []
           [feedSale "2023-01" 900; feedSale "2024-06" 60]
           (withForecastMethod DEFAULT_SETTINGS weightedAverage) midJune2024).
  reflexivity.
Defined.

(** X28. The simple average reads neither the months nor the date: under
    [simpleAverage6Months] two sales histories that agree record by record
    on product id and quantity give the same [avgMonthlyDemand], whatever
    the months of the records and whatever the two current dates. *)
Theorem simple_average_ignores_months
      (item : Item.t) (lots lots' : list InventoryLot.t)
      (sales sales' : list SalesHistory.t)
      (settings : Settings.t) (currentDate currentDate' : Date) :
  Settings.forecastMethod settings = simpleAverage6Months ->
  Forall2 (fun s s' => SalesHistory.itemId s = SalesHistory.itemId s'
                       /\ SalesHistory.quantitySold s = SalesHistory.quantitySold s')
          sales sales' ->
  ItemPlanningView.avgMonthlyDemand
    (calculateItemPlanning item lots sales settings currentDate)
  = ItemPlanningView.avgMonthlyDemand
      (calculateItemPlanning item lots' sales' settings currentDate').
Proof.
  intros Hm Hsame. cbn [ItemPlanningView.avgMonthlyDemand calculateItemPlanning].
  unfold avgMonthlyDemand. rewrite Hm.
  assert (Hqty : map SalesHistory.quantitySold (itemSales item sales)
                 = map SalesHistory.quantitySold (itemSales item sales')).
  { unfold itemSales. induction Hsame as [|s s' rest rest' [Hid Hq] _ IH];
      [reflexivity|].
    cbn [filter]. rewrite <- Hid.
    destruct (SalesHistory.itemId s =? Item.id item)%string; [|exact IH].
    cbn [map]. now rewrite Hq, IH. }
  assert (Hsum : forall xs acc,
            fold_left (fun sum s => sum + SalesHistory.quantitySold s) xs acc
            = fold_left Qplus (map SalesHistory.quantitySold xs) acc).
  { induction xs as [|x rest IH]; intros acc; [reflexivity|]. simpl. apply IH. }
  unfold Js.sum_by. rewrite !Hsum, Hqty.
  rewrite <- (length_map SalesHistory.quantitySold (itemSales item sales)).
  rewrite <- (length_map SalesHistory.quantitySold (itemSales item sales')).
  now rewrite Hqty.
Qed.

Lemma simple_average_ignores_months_witness :
  ItemPlanningView.avgMonthlyDemand
    (calculateItemPlanning feedItem [] [feedSale "2024-05" 304]
       DEFAULT_SETTINGS midJune2024)
  = ItemPlanningView.avgMonthlyDemand
      (calculateItemPlanning feedItem [] [feedSale "1999-01" 304]
         DEFAULT_SETTINGS
         {| getTime := hoursFromMidJune 9000; getFullYear := 2025; getMonth := 5 |}).
Proof.
  apply (simple_average_ignores_months feedItem [] []
           [feedSale "2024-05" 304] [feedSale "1999-01" 304] DEFAULT_SETTINGS).
  - reflexivity.
  - repeat constructor.
Defined.
